(** * TrendBot: referral ledger, post log and post rendering

    A shallow embedding of [main_standalone.py].  The SQLite file behind the
    [Database] class is a record of four tables, each a list of rows in rowid
    order; every method of [Database] is a function from the store (and the
    clock reading, where the statement or a column default reads the clock) to
    a [result], the raised exception or the new store with the returned value.

    What SQLite does with the statements the source issues is written out in
    the methods:
    - [UNIQUE] and [NOT NULL] column constraints are checked on [INSERT];
    - [FOREIGN KEY] clauses are parsed but not checked, because every
      connection is opened with [sqlite3.connect(path)] and the source never
      issues [PRAGMA foreign_keys = ON] (SQLite's default is off);
    - [AUTOINCREMENT] gives a new row the largest rowid ever used plus one;
      the program never deletes, so that is the largest rowid present;
    - [REAL] columns and Python [float]s are IEEE 754 binary64 values
      ([PrimFloat.float]).  SQLite stores a NaN as NULL; a NaN in a column
      stands for that NULL, which [+] propagates as it propagates a NaN,
      which [ORDER BY] puts below every number, and which is [None] in the
      object a reading method builds from the row ([is_null]);
    - [INTEGER] columns and the Python [int]s bound to them are [Z]: ids,
      counters and limits are taken inside SQLite's 64 bits, where the
      arithmetic of the statements is that of [Z];
    - [TEXT] is compared bytewise (the default [BINARY] collation); a Python
      [str] is the [string] of its UTF-8 bytes. *)

From Stdlib Require Import ZArith List String Ascii Bool Lia Floats Sorted.
From Stdlib Require Import DecimalString Permutation.
Import ListNotations.

Local Open Scope Z_scope.
Local Open Scope list_scope.

(** ** Exceptions *)

Inductive exn : Type :=
| IntegrityError (msg : string)   (* sqlite3.IntegrityError *)
| IndexError.                     (* random.choice on an empty sequence *)

Inductive result (A : Type) : Type :=
| Ok (a : A)
| Raise (e : exn).

Arguments Ok {A} a.
Arguments Raise {A} e.

Definition bind {A B : Type} (m : result A) (k : A -> result B) : result B :=
  match m with
  | Ok a => k a
  | Raise e => Raise e
  end.

Notation "x <- m ;; k" := (bind m (fun x => k))
  (at level 61, m at next level, right associativity).
Notation "' pat <- m ;; k" := (bind m (fun x => match x with pat => k end))
  (at level 61, pat pattern, m at next level, right associativity).

(** A [datetime]: seconds on the clock that [datetime.now()] and
    [CURRENT_TIMESTAMP] read. *)
Definition datetime : Type := Z.

(** ** Data classes *)

Module Offer.
Record t : Type := mk {
  id : option Z;
  title : string;
  description : string;
  category : string;
  commission : float;
  gravity : option float;
  affiliate_link : string;
  platform : string;
  created_at : datetime;
  updated_at : datetime
}.

Definition set_gravity (g : option float) (o : t) : t :=
  mk (id o) (title o) (description o) (category o) (commission o) g
     (affiliate_link o) (platform o) (created_at o) (updated_at o).
End Offer.

Module User.
Record t : Type := mk {
  id : option Z;
  user_id : Z;
  username : string;
  first_name : string;
  referral_code : string;
  referred_by : option string;
  referral_count : Z;
  total_earnings : float;
  created_at : datetime;
  last_active : datetime
}.

(** [UPDATE users SET username = ?, first_name = ?, last_active = ?] *)
Definition touch (name first : string) (now : datetime) (u : t) : t :=
  mk (id u) (user_id u) name first (referral_code u) (referred_by u)
     (referral_count u) (total_earnings u) (created_at u) now.

(** [UPDATE users SET referral_count = referral_count + 1,
    total_earnings = total_earnings + ?] *)
Definition credit (reward : float) (u : t) : t :=
  mk (id u) (user_id u) (username u) (first_name u) (referral_code u)
     (referred_by u) (referral_count u + 1)
     (PrimFloat.add (total_earnings u) reward) (created_at u) (last_active u).


(** [existing_user.last_active = datetime.now()] *)
Definition set_last_active (now : datetime) (u : t) : t :=
  mk (id u) (user_id u) (username u) (first_name u) (referral_code u)
     (referred_by u) (referral_count u) (total_earnings u) (created_at u) now.
End User.

Module Referral.
Record t : Type := mk {
  id : option Z;
  referrer_code : string;
  referred_user_id : Z;
  reward_amount : float;
  status : string;               (* pending, confirmed, paid *)
  created_at : datetime;
  updated_at : datetime
}.
End Referral.

Module Post.
(** A row of the [posts] table, columns in the order of [init_database]. *)
Record t : Type := mk {
  id : option Z;
  offer_id : option Z;
  posted_at : datetime;
  channel_id : string;
  message_id : Z
}.
End Post.

(** ** The store *)

Record Database : Type := mkDatabase {
  offers : list Offer.t;
  users : list User.t;
  referrals : list Referral.t;
  posts : list Post.t
}.

(** [init_database] on a new file: four empty tables. *)
Definition init_database : Database := mkDatabase [] [] [] [].

Definition rowid (i : option Z) : Z :=
  match i with
  | Some k => k
  | None => 0
  end.

(** [cursor.lastrowid] after an [INSERT] into an [AUTOINCREMENT] table whose
    rows carry the ids [ids]. *)
Definition lastrowid (ids : list (option Z)) : Z :=
  1 + fold_right Z.max 0 (map rowid ids).

Definition with_users (db : Database) (us : list User.t) : Database :=
  mkDatabase (offers db) us (referrals db) (posts db).

(** ** Database methods *)

(** A nullable REAL column bound to an [Optional[float]]: [None] and NaN are
    both stored as NULL, which is read back as [None]. *)
Definition bind_real (x : option float) : option float :=
  match x with
  | Some f => if PrimFloat.is_nan f then None else Some f
  | None => None
  end.

Definition save_offer (db : Database) (offer : Offer.t) (now : datetime)
  : result (Database * Z) :=
  let offer_id := lastrowid (map Offer.id (offers db)) in
  let row := Offer.mk (Some offer_id) (Offer.title offer)
               (Offer.description offer) (Offer.category offer)
               (Offer.commission offer) (bind_real (Offer.gravity offer))
               (Offer.affiliate_link offer) (Offer.platform offer) now now in
  Ok (mkDatabase (offers db ++ [row]) (users db) (referrals db) (posts db),
      offer_id).

Definition log_post (db : Database) (offer_id : option Z) (channel_id : string)
    (message_id : Z) (now : datetime) : result Database :=
  let row := Post.mk (Some (lastrowid (map Post.id (posts db)))) offer_id now
               channel_id message_id in
  Ok (mkDatabase (offers db) (users db) (referrals db) (posts db ++ [row])).

(** [SELECT * FROM users WHERE user_id = ?] then [fetchone].  The row is
    returned as it is stored; [User.__post_init__] changes a row read back
    only when its [referral_code] is empty. *)
Definition get_user (db : Database) (user_id : Z) : option User.t :=
  find (fun u => User.user_id u =? user_id) (users db).

Definition get_user_by_referral_code (db : Database) (referral_code : string)
  : option User.t :=
  find (fun u => String.eqb (User.referral_code u) referral_code) (users db).

Definition save_user (db : Database) (user : User.t) (now : datetime)
  : result (Database * Z) :=
  match find (fun u => User.user_id u =? User.user_id user) (users db) with
  | Some existing =>
      let upd u :=
        if User.user_id u =? User.user_id user
        then User.touch (User.username user) (User.first_name user) now u
        else u in
      Ok (with_users db (map upd (users db)), rowid (User.id existing))
  | None =>
      if existsb (fun u => String.eqb (User.referral_code u)
                                      (User.referral_code user)) (users db)
      then Raise (IntegrityError "UNIQUE constraint failed: users.referral_code")
      else
        let user_id := lastrowid (map User.id (users db)) in
        let row := User.mk (Some user_id) (User.user_id user)
                     (User.username user) (User.first_name user)
                     (User.referral_code user) (User.referred_by user)
                     0 0%float now now in
        Ok (with_users db (users db ++ [row]), user_id)
  end.

Definition save_referral (db : Database) (referral : Referral.t)
    (now : datetime) : result (Database * Z) :=
  let referral_id := lastrowid (map Referral.id (referrals db)) in
  let row := Referral.mk (Some referral_id) (Referral.referrer_code referral)
               (Referral.referred_user_id referral)
               (Referral.reward_amount referral) (Referral.status referral)
               now now in
  let upd u :=
    if String.eqb (User.referral_code u) (Referral.referrer_code referral)
    then User.credit (Referral.reward_amount referral) u
    else u in
  Ok (mkDatabase (offers db) (map upd (users db)) (referrals db ++ [row])
        (posts db),
      referral_id).

(** [SELECT * FROM users WHERE referral_count > 0
    ORDER BY referral_count DESC, total_earnings DESC LIMIT ?].

    [real_lt] and [real_le] are the sorter's order on the values of a REAL
    column: NULL below every number, two NULLs equal, two numbers by C's [<].
    [outranks a b]: the comparison puts [a] strictly before [b].  SQL leaves
    the order of rows that compare equal open; here they stay in rowid order,
    each row being inserted into the sorted rows that follow it. *)
Definition real_lt (x y : float) : bool :=
  if PrimFloat.is_nan y then false
  else if PrimFloat.is_nan x then true
  else PrimFloat.ltb x y.

Definition real_le (x y : float) : bool :=
  if PrimFloat.is_nan x then true
  else if PrimFloat.is_nan y then false
  else PrimFloat.leb x y.

Definition outranks (a b : User.t) : bool :=
  (User.referral_count b <? User.referral_count a)
  || ((User.referral_count a =? User.referral_count b)
      && real_lt (User.total_earnings b) (User.total_earnings a)).

Fixpoint order_insert (x : User.t) (l : list User.t) : list User.t :=
  match l with
  | [] => [x]
  | y :: l' => if outranks y x then y :: order_insert x l' else x :: l
  end.

Definition order_by (l : list User.t) : list User.t :=
  fold_right order_insert [] l.

(** [a] may stand before [b] on the leaderboard: more referrals, or as many
    and at least the earnings. *)
Definition leaderboard_ge (a b : User.t) : Prop :=
  User.referral_count b < User.referral_count a
  \/ (User.referral_count a = User.referral_count b
      /\ real_le (User.total_earnings b) (User.total_earnings a) = true).

(** [LIMIT n]: a negative [n] is no limit. *)
Definition sql_limit {A : Type} (n : Z) (rows : list A) : list A :=
  if n <? 0 then rows else firstn (Z.to_nat n) rows.

Definition get_leaderboard (db : Database) (limit : Z) : list User.t :=
  sql_limit limit
    (order_by (filter (fun u => 0 <? User.referral_count u) (users db))).

(** ** Strings of the Python side *)

Local Open Scope string_scope.

(** The line feed of the ["\n"] escapes. *)
Definition nl : string := String (ascii_of_nat 10) EmptyString.

(** [s.upper()] on ASCII letters, the alphabet of [secrets.token_hex]. *)
Definition upper_ascii (c : ascii) : ascii :=
  let n := nat_of_ascii c in
  if ((97 <=? n) && (n <=? 122))%nat then ascii_of_nat (n - 32) else c.

Fixpoint upper (s : string) : string :=
  match s with
  | EmptyString => EmptyString
  | String c s' => String (upper_ascii c) (upper s')
  end.

(** [s.replace(a, b)] for one-character [a] and [b]. *)
Fixpoint replace (a b : ascii) (s : string) : string :=
  match s with
  | EmptyString => EmptyString
  | String c s' => String (if Ascii.eqb c a then b else c) (replace a b s')
  end.

(** Truth value of a [str] and of an [Optional[str]]. *)
Definition str_truthy (s : string) : bool := negb (String.eqb s EmptyString).

Definition opt_truthy (s : option string) : bool :=
  match s with
  | Some x => str_truthy x
  | None => false
  end.

(** [x or ""], the empty string for [None] and for an empty [x]. *)
Definition or_empty (s : option string) : string :=
  match s with
  | Some x => if str_truthy x then x else EmptyString
  | None => EmptyString
  end.

(** Truth value of a [float]: [0.0] and [-0.0] are false, every other float
    (NaN too) is true. *)
Definition float_truthy (x : float) : bool := negb (PrimFloat.eqb x 0%float).

(** [random.choice(seq)] is [seq[randbelow(len(seq))]]; [r] is the number the
    generator yields, and an empty [seq] raises [IndexError]. *)
Definition random_choice {A : Type} (r : nat) (seq : list A) : result A :=
  match nth_error seq (r mod List.length seq) with
  | Some x => Ok x
  | None => Raise IndexError
  end.

(** ** Onboarding: [TrendBot.start_command] *)

(** [update.effective_user] *)
Module TgUser.
Record t : Type := mk {
  id : Z;
  username : option string;
  first_name : option string
}.
End TgUser.

(** [User(user_id=.., username=.., first_name=.., referred_by=..)] followed by
    [__post_init__]: the timestamps are read from the clock and the empty
    [referral_code] is replaced by ["LUX"] and [token], the string that
    [secrets.token_hex(4)] returns, in upper case. *)
Definition new_User (user_id : Z) (username first_name : string)
    (referred_by : option string) (token : string) (now : datetime) : User.t :=
  User.mk None user_id username first_name ("LUX" ++ upper token) referred_by
    0 0%float now now.

Inductive welcome : Type :=
| new_with_referral
| new
| returning.

(** What the handler hands to the transport: the kind of welcome message, the
    row it formats into it, and the referrer it tries to notify. *)
Record Reply : Type := mkReply {
  welcome_type : welcome;
  current_user : option User.t;
  notified : option User.t
}.

(** The store side of [start_command].  [args] is [context.args], [token] the
    draw of [secrets.token_hex(4)], [now] the clock.  The two sends
    ([send_message] to the referrer inside [try/except: pass], [reply_text] at
    the end) do not touch the store. *)
Definition start_command (db : Database) (user : TgUser.t) (args : list string)
    (token : string) (now : datetime) : result (Database * Reply) :=
  let referral_code := hd_error args in
  match get_user db (TgUser.id user) with
  | None =>
      let new_user :=
        new_User (TgUser.id user) (or_empty (TgUser.username user))
          (or_empty (TgUser.first_name user)) referral_code token now in
      '(db1, _) <- save_user db new_user now ;;
      '(db2, referrer) <-
        (match referral_code with
         | Some code =>
             if str_truthy code then
               match get_user_by_referral_code db1 code with
               | Some referrer =>
                   let reward_amount := 5%float in
                   let referral :=
                     Referral.mk None code (TgUser.id user) reward_amount
                       "confirmed" now now in
                   '(db2, _) <- save_referral db1 referral now ;;
                   Ok (db2, Some referrer)
               | None => Ok (db1, None)
               end
             else Ok (db1, None)
         | None => Ok (db1, None)
         end) ;;
      let welcome_type :=
        if opt_truthy referral_code then new_with_referral else new in
      Ok (db2, mkReply welcome_type (get_user db2 (TgUser.id user)) referrer)
  | Some existing_user =>
      let existing_user := User.set_last_active now existing_user in
      '(db1, _) <- save_user db existing_user now ;;
      Ok (db1, mkReply returning (get_user db1 (TgUser.id user)) None)
  end.

(** ** Rendering: [ContentGenerator.generate_post] *)

Definition emojis : list (string * list string) :=
  [ ("make_money", ["💰"; "💵"; "🤑"; "💸"; "🏆"; "💎"; "🚀"]);
    ("ai_tools", ["🤖"; "⚡"; "🚀"; "💡"; "🔥"; "⭐"; "🎯"]);
    ("crypto_airdrops", ["🪙"; "💎"; "🚀"; "📈"; "⭐"; "🔥"; "💰"]);
    ("newsletters", ["📧"; "📰"; "📊"; "💌"; "🎯"; "📈"; "⭐"]);
    ("gadgets", ["📱"; "💻"; "⌚"; "🎧"; "🔌"; "🚀"; "💡"]) ].

Definition hooks : list string :=
  [ "🚨 MONEY OPPORTUNITY ALERT!";
    "💰 EXCLUSIVE DEAL DISCOVERED!";
    "🔥 TRENDING NOW - LIMITED TIME!";
    "⚡ INSTANT PROFIT OPPORTUNITY!";
    "🎯 HIGH-COMMISSION ALERT!";
    "💎 PREMIUM OPPORTUNITY FOUND!";
    "🚀 VIRAL MONEY-MAKER SPOTTED!" ].

Definition ctas : list string :=
  [ "👆 CLICK TO CLAIM YOUR OPPORTUNITY";
    "🔗 TAP HERE TO START EARNING";
    "💰 CLICK NOW - LIMITED SPOTS";
    "⚡ INSTANT ACCESS - CLICK HERE";
    "🎯 CLAIM YOUR COMMISSION NOW";
    "🚀 START EARNING TODAY - CLICK";
    "💎 EXCLUSIVE ACCESS - TAP HERE" ].

Definition urgency_phrases : list string :=
  [ "⏰ *Limited time offer - Act fast!*";
    "🔥 *Trending now - Don't miss out!*";
    "⚡ *High demand - Secure your spot!*";
    "💎 *Exclusive access - Limited availability!*";
    "🚀 *Viral opportunity - Join now!*" ].

(** [d.get(key, default)] *)
Fixpoint dict_get {V : Type} (d : list (string * V)) (key : string)
    (default : V) : V :=
  match d with
  | [] => default
  | (k, v) :: d' => if String.eqb k key then v else dict_get d' key default
  end.

(** The four numbers the generator yields during one [generate_post]. *)
Record Draws : Type := mkDraws {
  draw_emoji : nat;
  draw_hook : nat;
  draw_cta : nat;
  draw_urgency : nat
}.

Section Rendering.

(** Python built-ins the post goes through: the format specs [:.2f] and
    [:.0f] of a float, and [str.title]. *)
Variable format_2f : float -> string.
Variable format_0f : float -> string.
Variable str_title : string -> string.

Definition generate_post (offer : Offer.t) (d : Draws) : result string :=
  let category_emojis := dict_get emojis (Offer.category offer) ["🔥"] in
  emoji <- random_choice (draw_emoji d) category_emojis ;;
  hook <- random_choice (draw_hook d) hooks ;;
  cta <- random_choice (draw_cta d) ctas ;;
  let commission_text :=
    if String.eqb (Offer.platform offer) "SparkLoop"
       || String.eqb (Offer.platform offer) "beehiiv"
    then "💵 **Earn**: $" ++ format_2f (Offer.commission offer)
         ++ " per subscriber"
    else "💵 **Commission**: $" ++ format_2f (Offer.commission offer) in
  let post := emoji ++ " **" ++ hook ++ "** " ++ emoji ++ nl ++ nl in
  let post := post ++ ("🎯 **" ++ Offer.title offer ++ "**" ++ nl ++ nl) in
  let post := post ++ (commission_text ++ nl) in
  let post := post ++ ("⭐ **Platform**: " ++ Offer.platform offer ++ nl) in
  let post :=
    post ++ ("📈 **Category**: "
             ++ str_title (replace "_" " " (Offer.category offer)) ++ nl) in
  let post :=
    match Offer.gravity offer with
    | Some g =>
        if float_truthy g
        then post ++ ("🔥 **Popularity**: " ++ format_0f g ++ "/100" ++ nl)
        else post
    | None => post
    end in
  let post := post ++ (nl ++ Offer.description offer ++ nl ++ nl) in
  let post := post ++ (cta ++ nl) in
  let post := post ++ ("🔗 " ++ Offer.affiliate_link offer ++ nl ++ nl) in
  urgency <- random_choice (draw_urgency d) urgency_phrases ;;
  Ok (post ++ urgency).

End Rendering.

(** [sub in s] *)
Definition contains (s sub : string) : Prop :=
  exists pre suf : string, s = pre ++ sub ++ suf.

(** ** The reading methods of [Database] *)

(** [ORDER BY key DESC] on an integer key, rows with equal keys staying in
    rowid order. *)
Fixpoint insert_desc {A : Type} (key : A -> Z) (x : A) (l : list A) : list A :=
  match l with
  | [] => [x]
  | y :: l' => if Z.ltb (key x) (key y) then y :: insert_desc key x l'
               else x :: l
  end.

Definition order_desc {A : Type} (key : A -> Z) (l : list A) : list A :=
  fold_right (insert_desc key) [] l.

(** [SELECT * FROM offers [WHERE category = ?] ORDER BY created_at DESC
    LIMIT ?]; the [WHERE] clause is there when [category] is true. *)
Definition get_offers (db : Database) (limit : Z) (category : option string)
  : list Offer.t :=
  if opt_truthy category
  then sql_limit limit
         (order_desc Offer.created_at
            (filter (fun o => String.eqb (Offer.category o) (or_empty category))
                    (offers db)))
  else sql_limit limit (order_desc Offer.created_at (offers db)).

(** [SELECT * FROM referrals WHERE referrer_code = ? ORDER BY created_at
    DESC] *)
Definition get_referrals (db : Database) (referrer_code : string)
  : list Referral.t :=
  order_desc Referral.created_at
    (filter (fun r => String.eqb (Referral.referrer_code r) referrer_code)
            (referrals db)).

(** ** [OfferGenerator] *)

Module Template.
Record t : Type := mk {
  title : string;
  description : string;
  category : string;
  commission_range : float * float;
  platform : string;
  gravity_range : float * float
}.
End Template.

Definition categories : list string :=
  ["make_money"; "ai_tools"; "crypto_airdrops"; "newsletters"; "gadgets"].

Definition platforms : list string :=
  ["ClickBank"; "Digistore24"; "SparkLoop"; "beehiiv"].

Definition offer_templates : list Template.t :=
  [
    Template.mk "AI Content Creator Pro"
      "Revolutionary AI tool that creates viral content in seconds. Perfect for social media managers and content creators looking to scale their output."
      "ai_tools" (25, 97)%float "ClickBank" (15, 85)%float;
    Template.mk "Passive Income Blueprint 2025"
      "Step-by-step system to build multiple passive income streams. Over 10,000 success stories from ordinary people making extraordinary money."
      "make_money" (47, 197)%float "ClickBank" (20, 75)%float;
    Template.mk "Crypto Trading Mastery"
      "Professional crypto trading course that turned beginners into profitable traders. Includes live trading sessions and private Discord."
      "crypto_airdrops" (97, 297)%float "ClickBank" (25, 90)%float;
    Template.mk "Smart Home Revolution Kit"
      "Complete smart home automation system with AI-powered controls. Transform your home into a futuristic living space."
      "gadgets" (15, 45)%float "Digistore24" (10, 60)%float;
    Template.mk "AI Business Automation Suite"
      "All-in-one AI toolkit for automating your business operations. Includes chatbots, email automation, and customer service AI."
      "ai_tools" (67, 167)%float "Digistore24" (30, 80)%float;
    Template.mk "Digital Nomad Lifestyle Guide"
      "Complete guide to building a location-independent business. Includes templates, tools, and step-by-step action plans."
      "make_money" (27, 87)%float "Digistore24" (15, 70)%float;
    Template.mk "Crypto Millionaire Newsletter"
      "Exclusive newsletter revealing crypto secrets that made ordinary people millionaires. Limited time access to insider strategies."
      "crypto_airdrops" (3, 7)%float "SparkLoop" (40, 95)%float;
    Template.mk "AI Weekly Insider"
      "Weekly newsletter covering the latest AI tools, trends, and money-making opportunities. Join 50,000+ subscribers."
      "ai_tools" (2, 6)%float "SparkLoop" (35, 85)%float;
    Template.mk "Side Hustle Success Stories"
      "Weekly newsletter featuring real people making $1,000-$10,000+ monthly from side hustles. Includes actionable tips and strategies."
      "make_money" (4, 8)%float "SparkLoop" (45, 90)%float;
    Template.mk "The Entrepreneur's Edge"
      "Daily newsletter with business insights from top entrepreneurs. Join 75,000+ subscribers getting exclusive content."
      "newsletters" (2, 5)%float "beehiiv" (50, 95)%float;
    Template.mk "Tech Trends Weekly"
      "Weekly roundup of the hottest tech trends, gadgets, and innovations. Perfect for tech enthusiasts and early adopters."
      "gadgets" (1.5, 4)%float "beehiiv" (30, 80)%float;
    Template.mk "Morning Crypto Brief"
      "Daily crypto market analysis and opportunities. Get the edge with insider insights and market predictions."
      "crypto_airdrops" (3, 6)%float "beehiiv" (40, 85)%float ].

(** [random.uniform(a, b)] is [a + (b - a) * random()]; [r] is the float that
    [random()] yields. *)
Definition random_uniform (a b r : float) : float :=
  PrimFloat.add a (PrimFloat.mul (PrimFloat.sub b a) r).

(** [s.lower()] on ASCII letters, the alphabet of the platform names. *)
Definition lower_ascii (c : ascii) : ascii :=
  let n := nat_of_ascii c in
  if ((65 <=? n) && (n <=? 90))%nat then ascii_of_nat (n + 32) else c.

Fixpoint lower (s : string) : string :=
  match s with
  | EmptyString => EmptyString
  | String c s' => String (lower_ascii c) (lower s')
  end.

(** [str(n)] of an [int] that is not negative. *)
Definition str_of_nat (n : nat) : string :=
  NilZero.string_of_uint (Nat.to_uint n).

(** What the generator yields during one round of the loop of
    [generate_offers]. *)
Record OfferDraw : Type := mkOfferDraw {
  draw_template : nat;
  draw_commission : float;
  draw_gravity : float;
  draw_title : nat
}.

(** The body of the loop, for the index [i]. *)
Definition generate_offer (i : nat) (d : OfferDraw) (now : datetime)
  : result Offer.t :=
  template <- random_choice (draw_template d) offer_templates ;;
  let commission :=
    random_uniform (fst (Template.commission_range template))
      (snd (Template.commission_range template)) (draw_commission d) in
  let gravity :=
    random_uniform (fst (Template.gravity_range template))
      (snd (Template.gravity_range template)) (draw_gravity d) in
  let title_variations :=
    [ Template.title template;
      Template.title template ++ " - Limited Time";
      "🔥 " ++ Template.title template;
      Template.title template ++ " 2025 Edition" ] in
  title <- random_choice (draw_title d) title_variations ;;
  Ok (Offer.mk None title (Template.description template)
        (Template.category template) commission (Some gravity)
        ("https://trendbot.link/" ++ lower (Template.platform template) ++ "/"
         ++ str_of_nat (i + 1) ++ "?ref=trendbot")
        (Template.platform template) now now).

(** [for i in range(count)], [n] rounds being left from the index [i] on;
    [draws i] is what the generator yields in round [i]. *)
Fixpoint generate_loop (n i : nat) (draws : nat -> OfferDraw) (now : datetime)
  : result (list Offer.t) :=
  match n with
  | O => Ok []
  | S n' =>
      offer <- generate_offer i (draws i) now ;;
      rest <- generate_loop n' (S i) draws now ;;
      Ok (offer :: rest)
  end.

Definition generate_offers (count : Z) (draws : nat -> OfferDraw)
    (now : datetime) : result (list Offer.t) :=
  generate_loop (Z.to_nat count) 0 draws now.

(** ** [TrendBot]: posting *)

(** [self.stats] *)
Record Stats : Type := mkStats {
  posts_sent : Z;
  offers_generated : Z;
  bot_started : datetime
}.

(** [for offer in new_offers: self.db.save_offer(offer);
    self.stats["offers_generated"] += 1].  What was saved before a raise
    stays saved. *)
Fixpoint save_offers (db : Database) (stats : Stats) (new_offers : list Offer.t)
    (now : datetime) : Database * Stats * option exn :=
  match new_offers with
  | [] => (db, stats, None)
  | offer :: rest =>
      match save_offer db offer now with
      | Ok (db1, _) =>
          save_offers db1
            (mkStats (posts_sent stats) (offers_generated stats + 1)
               (bot_started stats)) rest now
      | Raise e => (db, stats, Some e)
      end
  end.

(** A REAL column that holds NULL.  The object that [get_offers], [get_user]
    or [get_referrals] builds from the row has [None] in that field, and
    formatting [None] with [:.2f], like adding it to a number, raises
    [TypeError]. *)
Definition is_null (x : float) : bool := PrimFloat.is_nan x.

(** [generate_post] on an offer that [get_offers] has built from a stored
    row: a NULL [gravity] is [None], and a NULL [commission], [None] as
    well, meets [:.2f].  [None] is that [TypeError]. *)
Definition generate_post_stored (format_2f format_0f : float -> string)
    (str_title : string -> string) (offer : Offer.t) (d : Draws)
  : option (result string) :=
  if is_null (Offer.commission offer) then None
  else Some (generate_post format_2f format_0f str_title
               (Offer.set_gravity (bind_real (Offer.gravity offer)) offer) d).

(** [post_to_channel]: the whole body is inside [try/except Exception], so
    nothing is raised and the store and the counters are what they were when
    the body stopped.  [channel] is [TELEGRAM_CHANNEL_ID], [gen] the draws of
    the generator, [pick] the draw that chooses the offer, [d] the draws of
    the rendering, and [sent] what [send_message] answers: the id of the
    message, or [None] when it raises.  The offers are rows read from the
    store ([stored]) or, after an empty read, the objects just generated. *)
Definition post_to_channel (db : Database) (stats : Stats) (channel : string)
    (gen : nat -> OfferDraw) (pick : nat) (d : Draws)
    (format_2f format_0f : float -> string) (str_title : string -> string)
    (sent : option Z) (now : datetime) : Database * Stats :=
  let publish (db : Database) (stats : Stats) (stored : bool)
              (offers : list Offer.t) :=
    match random_choice pick offers with
    | Raise _ => (db, stats)
    | Ok offer =>
        match (if stored
               then generate_post_stored format_2f format_0f str_title offer d
               else Some (generate_post format_2f format_0f str_title offer d))
        with
        | None => (db, stats)
        | Some (Raise _) => (db, stats)
        | Some (Ok post_content) =>
            match sent with
            | None => (db, stats)
            | Some message_id =>
                match log_post db (Offer.id offer) channel message_id now with
                | Raise _ => (db, stats)
                | Ok db1 =>
                    (db1, mkStats (posts_sent stats + 1)
                            (offers_generated stats) (bot_started stats))
                end
            end
        end
    end in
  match get_offers db 10 None with
  | [] =>
      match generate_offers 20 gen now with
      | Raise _ => (db, stats)
      | Ok new_offers =>
          match save_offers db stats new_offers now with
          | (db1, stats1, Some _) => (db1, stats1)
          | (db1, stats1, None) =>
              publish db1 stats1 false (firstn 10 new_offers)
          end
      end
  | offers => publish db stats true offers
  end.

(** The part of [start_bot] in front of the application: the two environment
    variables are checked, then an empty catalog is filled with 30 offers.
    [None] is the early [return]. *)
Definition start_bot (db : Database) (stats : Stats)
    (bot_token channel_id : option string) (gen : nat -> OfferDraw)
    (now : datetime) : result (option (Database * Stats)) :=
  if negb (opt_truthy bot_token) then Ok None
  else if negb (opt_truthy channel_id) then Ok None
  else
    match get_offers db 1 None with
    | [] =>
        initial_offers <- generate_offers 30 gen now ;;
        match save_offers db stats initial_offers now with
        | (db1, stats1, None) => Ok (Some (db1, stats1))
        | (_, _, Some e) => Raise e
        end
    | _ => Ok (Some (db, stats))
    end.

(** ** [TrendBot]: the referral dashboard and the statistics *)

(** What a handler can raise besides the store's exceptions. *)
Inductive handler_exn : Type :=
| Storage (e : exn)
| AttributeError        (* an attribute of [None] *)
| ValueError            (* [max] of an empty dict *)
| TypeError.            (* [None] where a number is formatted or added *)

(** What [referral_command] formats: the user's row and the five newest
    referrals. *)
Record Dashboard : Type := mkDashboard {
  db_user : User.t;
  recent_referrals : list Referral.t
}.

(** [referral_message]: what the text is built from, or the [TypeError] of
    [:.2f] on a NULL [total_earnings] of the row, which is formatted first,
    or on a NULL [reward_amount] of one of the five referrals. *)
Definition referral_message (db_user : User.t) (referrals : list Referral.t)
  : handler_exn + Dashboard :=
  if is_null (User.total_earnings db_user) then inl TypeError
  else if existsb (fun referral => is_null (Referral.reward_amount referral))
            (firstn 5 referrals)
  then inl TypeError
  else inr (mkDashboard db_user (firstn 5 referrals)).

(** [referral_command] up to [reply_text]: the store as the handler leaves
    it, and the dashboard or what is raised.  The row of a user who is new
    is written before the message is built. *)
Definition referral_command (db : Database) (user : TgUser.t) (token : string)
    (now : datetime) : Database * (handler_exn + Dashboard) :=
  let show (db : Database) (db_user : option User.t) :=
    match db_user with
    | None => (db, inl AttributeError)
    | Some u =>
        let referrals := get_referrals db (User.referral_code u) in
        (db, referral_message u referrals)
    end in
  match get_user db (TgUser.id user) with
  | None =>
      let new_user :=
        new_User (TgUser.id user) (or_empty (TgUser.username user))
          (or_empty (TgUser.first_name user)) None token now in
      match save_user db new_user now with
      | Raise e => (db, inl (Storage e))
      | Ok (db1, _) => show db1 (get_user db1 (TgUser.id user))
      end
  | Some u => show db (Some u)
  end.

(** [d[k] = d.get(k, 0) + 1] on a dict, the keys in insertion order. *)
Fixpoint dict_incr (d : list (string * Z)) (k : string) : list (string * Z) :=
  match d with
  | [] => [(k, 1%Z)]
  | (k', v) :: d' =>
      if String.eqb k' k then (k', (v + 1)%Z) :: d'
      else (k', v) :: dict_incr d' k
  end.

Definition tally (keys : list string) : list (string * Z) :=
  fold_left dict_incr keys [].

(** [max(d, key=d.get)]: the first key with the largest value; [None] is the
    [ValueError] for an empty dict. *)
Definition dict_max (d : list (string * Z)) : option string :=
  match d with
  | [] => None
  | kv :: d' =>
      Some (fst (fold_left
                   (fun best kv' => if Z.ltb (snd best) (snd kv') then kv'
                                    else best) d' kv))
  end.

(** What [stats_command] counts before it formats its message: the number of
    offers, the two breakdowns and their top entries.  [None] is the reply
    that no statistics are there yet.  Of the average commission only what it
    raises is kept: [sum] adds the commissions of the offers read, and a NULL
    one, [None] in the object, is a [TypeError] before anything is counted;
    the value of the sum and the text are not part of the model. *)
Record Breakdown : Type := mkBreakdown {
  total_offers : nat;
  by_platform : list (string * Z);
  by_category : list (string * Z);
  top_platform : string;
  top_category : string
}.

Definition stats_command (db : Database) : handler_exn + option Breakdown :=
  let offers := get_offers db 1000 None in
  match offers with
  | [] => inr None
  | _ =>
      if existsb (fun offer => is_null (Offer.commission offer)) offers
      then inl TypeError
      else
        let platforms := tally (map Offer.platform offers) in
        let categories := tally (map Offer.category offers) in
        match dict_max platforms, dict_max categories with
        | Some p, Some c =>
            inr (Some (mkBreakdown (List.length offers) platforms categories
                         p c))
        | _, _ => inl ValueError
        end
  end.

(** ** [test_referral_system] *)

(** What the script prints after its five reads. *)
Record TestReport : Type := mkTestReport {
  user1_referrals : Z;
  user1_earnings : float;
  user2_referred_by : option string;
  leaderboard_entries : nat;
  referral_records : nat
}.

(** The body of the [try]; [db] is the content of [test_referral.db] when the
    script starts, [token1] and [token2] the draws for the two [User]
    objects.  [None] is the [except] branch, in which the script returns
    [False]. *)
Definition test_referral_system (db : Database) (token1 token2 : string)
    (now : datetime) : Database * option TestReport :=
  let user1 := new_User 12345 "testuser1" "Alice" None token1 now in
  let user2 :=
    new_User 67890 "testuser2" "Bob" (Some (User.referral_code user1)) token2
      now in
  match save_user db user1 now with
  | Raise _ => (db, None)
  | Ok (db1, _) =>
      match save_user db1 user2 now with
      | Raise _ => (db1, None)
      | Ok (db2, _) =>
          let referral :=
            Referral.mk None (User.referral_code user1) (User.user_id user2)
              5%float "confirmed" now now in
          match save_referral db2 referral now with
          | Raise _ => (db2, None)
          | Ok (db3, _) =>
              let leaderboard := get_leaderboard db3 5 in
              let referrals := get_referrals db3 (User.referral_code user1) in
              match get_user db3 12345, get_user db3 67890 with
              | Some retrieved_user1, Some retrieved_user2 =>
                  (db3,
                   Some (mkTestReport (User.referral_count retrieved_user1)
                           (User.total_earnings retrieved_user1)
                           (User.referred_by retrieved_user2)
                           (List.length leaderboard) (List.length referrals)))
              | _, _ => (db3, None)
              end
          end
      end
  end.

(** ** The stores the bot reaches, and what the schema says of them *)

(** From a new database file, by the handlers that write: [/start],
    [/referral], a post (scheduled or by [/post]) and the start of the bot. *)
Inductive reachable : Database -> Prop :=
| reachable_init : reachable init_database
| reachable_start (db : Database) (user : TgUser.t) (args : list string)
    (token : string) (now : datetime) (db' : Database) (reply : Reply) :
    reachable db ->
    start_command db user args token now = Ok (db', reply) ->
    reachable db'
| reachable_referral (db : Database) (user : TgUser.t) (token : string)
    (now : datetime) :
    reachable db ->
    reachable (fst (referral_command db user token now))
| reachable_post (db : Database) (stats : Stats) (channel : string)
    (gen : nat -> OfferDraw) (pick : nat) (d : Draws)
    (format_2f format_0f : float -> string) (str_title : string -> string)
    (sent : option Z) (now : datetime) :
    reachable db ->
    reachable (fst (post_to_channel db stats channel gen pick d format_2f
                      format_0f str_title sent now))
| reachable_start_bot (db : Database) (stats : Stats)
    (bot_token channel_id : option string) (gen : nat -> OfferDraw)
    (now : datetime) (db' : Database) (stats' : Stats) :
    reachable db ->
    start_bot db stats bot_token channel_id gen now = Ok (Some (db', stats')) ->
    reachable db'.

(** [user_id INTEGER UNIQUE] and [referral_code TEXT UNIQUE] of [users]. *)
Definition keys_ok (db : Database) : Prop :=
  NoDup (map User.user_id (users db))
  /\ NoDup (map User.referral_code (users db)).

(** [id INTEGER PRIMARY KEY] of the four tables. *)
Definition rowids_ok (db : Database) : Prop :=
  NoDup (map Offer.id (offers db))
  /\ NoDup (map User.id (users db))
  /\ NoDup (map Referral.id (referrals db))
  /\ NoDup (map Post.id (posts db)).

(** The rewards of the referral rows that name [code], in rowid order. *)
Definition rewards_of (db : Database) (code : string) : list float :=
  map Referral.reward_amount
    (filter (fun r => String.eqb (Referral.referrer_code r) code)
            (referrals db)).

(** The aggregates of the users agree with the [referrals] table: every
    referral names the code of a stored user, and every user has as many
    referrals as rows name their code and has earned the sum of the rewards
    of these rows, added in rowid order. *)
Definition ledger_ok (db : Database) : Prop :=
  Forall (fun r => get_user_by_referral_code db (Referral.referrer_code r)
                   <> None) (referrals db)
  /\ Forall (fun u =>
               User.referral_count u
               = Z.of_nat (List.length (rewards_of db (User.referral_code u)))
               /\ User.total_earnings u
                  = fold_left PrimFloat.add
                      (rewards_of db (User.referral_code u)) 0%float)
       (users db).

(** [FOREIGN KEY (referred_user_id) REFERENCES users (user_id)], one referral
    at most for a referred user, and the reward and status that [/start]
    writes. *)
Definition referrals_ok (db : Database) : Prop :=
  Forall (fun r => get_user db (Referral.referred_user_id r) <> None
                   /\ Referral.reward_amount r = 5%float
                   /\ Referral.status r = "confirmed")
         (referrals db)
  /\ NoDup (map Referral.referred_user_id (referrals db)).

(** What a handler may do to a stored user row: the row stays at its place
    with its [id], [user_id], [referral_code], [referred_by] and
    [created_at], and with at least its [referral_count]. *)
Definition row_kept (u u' : User.t) : Prop :=
  User.id u' = User.id u
  /\ User.user_id u' = User.user_id u
  /\ User.referral_code u' = User.referral_code u
  /\ User.referred_by u' = User.referred_by u
  /\ User.created_at u' = User.created_at u
  /\ (User.referral_count u <= User.referral_count u')%Z.

Definition users_kept (db db' : Database) : Prop :=
  forall (i : nat) (u : User.t),
    nth_error (users db) i = Some u ->
    exists u' : User.t, nth_error (users db') i = Some u' /\ row_kept u u'.

(** ** Sample rows and updates *)

Definition tg_alice : TgUser.t := TgUser.mk 1 (Some "alice") (Some "Alice").
Definition tg_bob : TgUser.t := TgUser.mk 2 (Some "bob") (Some "Bob").

(** Alice as [start_command] stores her at time 100 after the draw
    ["ab12cd34"]. *)
Definition alice : User.t :=
  User.mk (Some 1) 1 "alice" "Alice" "LUXAB12CD34" None 0 0%float 100 100.

Definition db_alice : Database := mkDatabase [] [alice] [] [].

(** A referral naming a code that no user holds. *)
Definition dangling_referral : Referral.t :=
  Referral.mk None "LUXDEADBEEF" 2 5%float "confirmed" 0 0.

Definition alice_referral : Referral.t :=
  Referral.mk None "LUXAB12CD34" 2 5%float "confirmed" 0 0.

(** Three credited users and one without referrals, in rowid order. *)
Definition carol : User.t :=
  User.mk (Some 2) 2 "carol" "Carol" "LUX000000C2" None 2 10%float 110 110.
Definition dave : User.t :=
  User.mk (Some 3) 3 "dave" "Dave" "LUX000000D3" None 1 5%float 120 120.
Definition erin : User.t :=
  User.mk (Some 4) 4 "erin" "Erin" "LUX000000E4" None 2 12.5%float 130 130.

Definition db_board : Database := mkDatabase [] [alice; carol; dave; erin] [] [].

(** An offer of the generator with gravity 0, the draws of one rendering, and
    stand-ins for the built-in formatters. *)
Definition offer_zero : Offer.t :=
  Offer.mk (Some 1) "AI Weekly Insider" "Weekly newsletter." "ai_tools"
    4.5%float (Some 0%float) "https://trendbot.link/sparkloop/1?ref=trendbot"
    "SparkLoop" 100 100.

Definition draws_0 : Draws := mkDraws 3 8 0 12.

Definition fixed_2f (_ : float) : string := "4.50".
Definition fixed_0f (_ : float) : string := "50".
Definition title_id (s : string) : string := s.

(** The counters of a bot started at time 50, draws for the generator, a
    catalog of one offer, and the store after Alice and then Bob, with her
    code, have sent [/start]. *)
Definition stats_0 : Stats := mkStats 0 0 50.

Definition gen_0 (i : nat) : OfferDraw :=
  mkOfferDraw i 0.5%float 0.25%float i.

Definition db_catalog : Database := mkDatabase [offer_zero] [] [] [].

(** An offer with a NaN commission and a referral with a NaN reward, and the
    stores that [save_offer] and [save_referral] make of them: the NaN is
    bound as NULL, and the NULL reward makes Alice's earnings NULL. *)
Definition offer_nan : Offer.t :=
  Offer.mk None "AI Weekly Insider" "Weekly newsletter." "ai_tools"
    PrimFloat.nan None "https://trendbot.link/sparkloop/1?ref=trendbot"
    "SparkLoop" 100 100.

Definition db_null_commission : Database :=
  mkDatabase
    [Offer.mk (Some 1) "AI Weekly Insider" "Weekly newsletter." "ai_tools"
       PrimFloat.nan None "https://trendbot.link/sparkloop/1?ref=trendbot"
       "SparkLoop" 100 100] [] [] [].

Definition referral_nan : Referral.t :=
  Referral.mk None "LUXAB12CD34" 2 PrimFloat.nan "confirmed" 200 200.

Definition db_null_reward : Database :=
  mkDatabase []
    [User.mk (Some 1) 1 "alice" "Alice" "LUXAB12CD34" None 1 PrimFloat.nan 100
       100]
    [Referral.mk (Some 1) "LUXAB12CD34" 2 PrimFloat.nan "confirmed" 200 200]
    [].

Definition db_alice_bob : Database :=
  mkDatabase []
    [ User.mk (Some 1) 1 "alice" "Alice" "LUXAB12CD34" None 1 5%float 100 100;
      User.mk (Some 2) 2 "bob" "Bob" "LUX9F3E77A0" (Some "LUXAB12CD34")
        0 0%float 200 200 ]
    [ Referral.mk (Some 1) "LUXAB12CD34" 2 5%float "confirmed" 200 200 ]
    [].

(** * Properties *)

Local Close Scope string_scope.

(** ** Lists and lookups *)

Section Lookup.

Context {A : Type} (p : A -> bool).

Lemma find_map_stable (f : A -> A) (l : list A) :
  (forall x, p (f x) = p x) ->
  find p (map f l) = option_map f (find p l).
Proof.
  intros Hp. induction l as [|x l IH]; cbn; [reflexivity|].
  rewrite Hp. destruct (p x); [reflexivity|exact IH].
Qed.

Lemma find_snoc (l : list A) (x : A) :
  find p (l ++ [x]) =
  match find p l with
  | Some y => Some y
  | None => if p x then Some x else None
  end.
Proof.
  induction l as [|y l IH]; cbn; [reflexivity|].
  destruct (p y); [reflexivity|exact IH].
Qed.

Lemma find_none_existsb (l : list A) :
  find p l = None -> existsb p l = false.
Proof.
  induction l as [|x l IH]; cbn; [reflexivity|].
  destruct (p x); [discriminate|exact IH].
Qed.

Lemma map_id_on (f : A -> A) (l : list A) :
  (forall x, In x l -> f x = x) -> map f l = l.
Proof.
  intros Hf. induction l as [|x l IH]; cbn; [reflexivity|].
  rewrite Hf by (left; reflexivity).
  rewrite IH; [reflexivity|]. intros y Hy. apply Hf. right. exact Hy.
Qed.

End Lookup.


Lemma credit_referral_code (r : float) (u : User.t) :
  User.referral_code (User.credit r u) = User.referral_code u.
Proof. reflexivity. Qed.

Lemma get_user_by_referral_code_code (db : Database) (code : string)
    (u : User.t) :
  get_user_by_referral_code db code = Some u -> User.referral_code u = code.
Proof.
  unfold get_user_by_referral_code. intros H.
  apply find_some in H. destruct H as [_ H].
  apply String.eqb_eq. exact H.
Qed.


(** No row carries [code]: the crediting [UPDATE] matches nothing. *)
Lemma credit_no_match (db : Database) (code : string) (reward : float) :
  get_user_by_referral_code db code = None ->
  map (fun u => if String.eqb (User.referral_code u) code
                then User.credit reward u else u) (users db) = users db.
Proof.
  unfold get_user_by_referral_code. intros H.
  apply map_id_on. intros u Hu.
  destruct (String.eqb (User.referral_code u) code) eqn:E; [|reflexivity].
  exfalso. eapply find_none in H; [|exact Hu]. cbn in H. congruence.
Qed.

(** ** [save_user] *)

Lemma save_user_insert (db : Database) (user : User.t) (now : datetime) :
  get_user db (User.user_id user) = None ->
  get_user_by_referral_code db (User.referral_code user) = None ->
  save_user db user now =
  Ok (with_users db
        (users db ++
         [User.mk (Some (lastrowid (map User.id (users db))))
            (User.user_id user) (User.username user) (User.first_name user)
            (User.referral_code user) (User.referred_by user) 0 0%float
            now now]),
      lastrowid (map User.id (users db))).
Proof.
  unfold get_user, get_user_by_referral_code, save_user. intros Hu Hc.
  rewrite Hu. rewrite (find_none_existsb _ _ Hc). reflexivity.
Qed.


(** ** [save_referral] *)

Lemma save_referral_lookup (db : Database) (referral : Referral.t)
    (u : User.t) :
  get_user_by_referral_code db (Referral.referrer_code referral) = Some u ->
  get_user_by_referral_code
    (mkDatabase (offers db)
       (map (fun v => if String.eqb (User.referral_code v)
                                    (Referral.referrer_code referral)
                      then User.credit (Referral.reward_amount referral) v
                      else v) (users db))
       (referrals db) (posts db))
    (Referral.referrer_code referral)
  = Some (User.credit (Referral.reward_amount referral) u).
Proof.
  intros Hu. pose proof (get_user_by_referral_code_code _ _ _ Hu) as Hc.
  unfold get_user_by_referral_code in *. cbn [users].
  rewrite find_map_stable.
  - rewrite Hu. cbn. rewrite Hc, String.eqb_refl. reflexivity.
  - intros x.
    destruct (String.eqb (User.referral_code x)
                (Referral.referrer_code referral)) eqn:E;
      [rewrite credit_referral_code|]; exact E.
Qed.

(** C1, as amended.  When [referrer_code] resolves to no user,
    [save_referral] raises nothing: it returns the new rowid, the referral row
    is appended, no user row changes, and the other tables are as before. *)
Theorem save_referral_unknown_code (db : Database) (referral : Referral.t)
    (now : datetime) :
  get_user_by_referral_code db (Referral.referrer_code referral) = None ->
  exists db' : Database,
    save_referral db referral now
    = Ok (db', lastrowid (map Referral.id (referrals db)))
    /\ referrals db'
       = referrals db ++
         [Referral.mk (Some (lastrowid (map Referral.id (referrals db))))
            (Referral.referrer_code referral)
            (Referral.referred_user_id referral)
            (Referral.reward_amount referral) (Referral.status referral)
            now now]
    /\ users db' = users db
    /\ offers db' = offers db
    /\ posts db' = posts db.
Proof.
  intros Hnone. unfold save_referral. eexists. split; [reflexivity|].
  cbn [referrals users offers posts].
  repeat split. apply credit_no_match. exact Hnone.
Qed.

Lemma save_referral_unknown_code_witness :
  get_user_by_referral_code db_alice
    (Referral.referrer_code dangling_referral) = None
  /\ exists db' : Database,
       save_referral db_alice dangling_referral 200 = Ok (db', 1)
       /\ referrals db'
          = referrals db_alice ++
            [Referral.mk (Some 1) "LUXDEADBEEF" 2 5%float "confirmed" 200 200]
       /\ users db' = users db_alice
       /\ offers db' = offers db_alice
       /\ posts db' = posts db_alice.
Proof.
  split; [reflexivity|].
  apply (save_referral_unknown_code db_alice dangling_referral 200).
  reflexivity.
Defined.

(** C1, as stated, fails: with Alice the only user and a referral naming
    ["LUXDEADBEEF"], [save_referral] raises nothing, returns rowid 1 and leaves
    the referral row in the table. *)
Lemma save_referral_unknown_code_counterexample :
  get_user_by_referral_code db_alice
    (Referral.referrer_code dangling_referral) = None
  /\ (forall e : exn, save_referral db_alice dangling_referral 200 <> Raise e)
  /\ save_referral db_alice dangling_referral 200
     = Ok (mkDatabase [] [alice]
             [Referral.mk (Some 1) "LUXDEADBEEF" 2 5%float "confirmed" 200 200]
             [],
           1).
Proof.
  split; [reflexivity|]. split; [intros e H; discriminate H|reflexivity].
Qed.

(** C3.  When [referrer_code] resolves to a user [u], [save_referral] returns
    the new rowid, appends the referral row and, in the same call, leaves [u]
    with [referral_count + 1] and [total_earnings + reward_amount].  And when a
    user not yet stored starts the bot with the code of a stored user whose
    aggregates are (0, 0.0), one referral row with reward 5.0 and status
    confirmed is appended and the referrer's aggregates are (1, 5.0). *)
Theorem save_referral_credits_referrer :
  (forall (db : Database) (referral : Referral.t) (now : datetime)
          (u : User.t),
      get_user_by_referral_code db (Referral.referrer_code referral) = Some u ->
      exists (db' : Database) (u' : User.t),
        save_referral db referral now
        = Ok (db', lastrowid (map Referral.id (referrals db)))
        /\ referrals db'
           = referrals db ++
             [Referral.mk (Some (lastrowid (map Referral.id (referrals db))))
                (Referral.referrer_code referral)
                (Referral.referred_user_id referral)
                (Referral.reward_amount referral) (Referral.status referral)
                now now]
        /\ get_user_by_referral_code db' (Referral.referrer_code referral)
           = Some u'
        /\ User.user_id u' = User.user_id u
        /\ User.referral_count u' = User.referral_count u + 1
        /\ User.total_earnings u'
           = PrimFloat.add (User.total_earnings u)
               (Referral.reward_amount referral))
  /\
  (forall (db : Database) (user : TgUser.t) (code : string)
          (rest : list string) (token : string) (now : datetime)
          (referrer : User.t),
      get_user db (TgUser.id user) = None ->
      get_user_by_referral_code db ("LUX" ++ upper token)%string = None ->
      code <> EmptyString ->
      get_user_by_referral_code db code = Some referrer ->
      User.referral_count referrer = 0 ->
      User.total_earnings referrer = 0%float ->
      exists (db' : Database) (reply : Reply) (referrer' : User.t),
        start_command db user (code :: rest) token now = Ok (db', reply)
        /\ welcome_type reply = new_with_referral
        /\ referrals db'
           = referrals db ++
             [Referral.mk (Some (lastrowid (map Referral.id (referrals db))))
                code (TgUser.id user) 5%float "confirmed" now now]
        /\ get_user_by_referral_code db' code = Some referrer'
        /\ User.user_id referrer' = User.user_id referrer
        /\ User.referral_count referrer' = 1
        /\ User.total_earnings referrer' = 5%float).
Proof.
  split.
  - intros db referral now u Hu.
    unfold save_referral. do 2 eexists. split; [reflexivity|].
    cbn [referrals]. split; [reflexivity|].
    split; [apply save_referral_lookup; exact Hu|].
    repeat split.
  - intros db user code rest token now referrer Hnew Hfresh Hcode Hres Hcnt Hearn.
    assert (Htruthy : str_truthy code = true).
    { unfold str_truthy. apply negb_true_iff. apply String.eqb_neq. exact Hcode. }
    assert (Hres1 :
      get_user_by_referral_code
        (with_users db
           (users db ++
            [User.mk (Some (lastrowid (map User.id (users db))))
               (TgUser.id user) (or_empty (TgUser.username user))
               (or_empty (TgUser.first_name user)) ("LUX" ++ upper token)%string
               (Some code) 0 0%float now now])) code = Some referrer).
    { unfold get_user_by_referral_code in *. cbn [users with_users].
      rewrite find_snoc, Hres. reflexivity. }
    unfold start_command. rewrite Hnew. cbn [hd_error].
    rewrite save_user_insert by assumption.
    cbn [bind new_User User.user_id User.username User.first_name
         User.referral_code User.referred_by].
    rewrite Htruthy, Hres1. unfold save_referral.
    cbn [bind Referral.referrer_code Referral.reward_amount
         Referral.referred_user_id Referral.status opt_truthy].
    rewrite Htruthy.
    do 3 eexists. split; [reflexivity|].
    cbn [welcome_type referrals with_users].
    split; [reflexivity|]. split; [reflexivity|].
    split.
    { apply (save_referral_lookup _
               (Referral.mk None code (TgUser.id user) 5%float
                  "confirmed" now now) referrer).
      exact Hres1. }
    cbn [User.credit User.user_id User.referral_count User.total_earnings].
    rewrite Hcnt, Hearn. repeat split.
Qed.

Lemma save_referral_credits_referrer_witness :
  (get_user_by_referral_code db_alice
     (Referral.referrer_code alice_referral) = Some alice
   /\ exists (db' : Database) (u' : User.t),
        save_referral db_alice alice_referral 200 = Ok (db', 1)
        /\ referrals db'
           = [Referral.mk (Some 1) "LUXAB12CD34" 2 5%float "confirmed" 200 200]
        /\ get_user_by_referral_code db' "LUXAB12CD34" = Some u'
        /\ User.user_id u' = 1
        /\ User.referral_count u' = 0 + 1
        /\ User.total_earnings u' = PrimFloat.add 0%float 5%float)
  /\
  (get_user db_alice (TgUser.id tg_bob) = None
   /\ get_user_by_referral_code db_alice ("LUX" ++ upper "9f3e77a0")%string = None
   /\ "LUXAB12CD34"%string <> EmptyString
   /\ get_user_by_referral_code db_alice "LUXAB12CD34" = Some alice
   /\ exists (db' : Database) (reply : Reply) (referrer' : User.t),
        start_command db_alice tg_bob ["LUXAB12CD34"%string] "9f3e77a0" 200
        = Ok (db', reply)
        /\ welcome_type reply = new_with_referral
        /\ referrals db'
           = [Referral.mk (Some 1) "LUXAB12CD34" 2 5%float "confirmed" 200 200]
        /\ get_user_by_referral_code db' "LUXAB12CD34" = Some referrer'
        /\ User.user_id referrer' = 1
        /\ User.referral_count referrer' = 1
        /\ User.total_earnings referrer' = 5%float).
Proof.
  destruct save_referral_credits_referrer as [HA HB].
  split.
  - split; [reflexivity|].
    apply (HA db_alice alice_referral 200 alice). reflexivity.
  - split; [reflexivity|]. split; [reflexivity|].
    split; [discriminate|]. split; [reflexivity|].
    apply (HB db_alice tg_bob "LUXAB12CD34"%string [] "9f3e77a0"%string 200
             alice); try reflexivity.
    discriminate.
Defined.

(** ** [log_post] *)

(** Whatever [offer_id] is, [log_post] appends one row and raises nothing. *)
Lemma log_post_appends (db : Database) (offer_id : option Z)
    (channel_id : string) (message_id : Z) (now : datetime) :
  exists row : Post.t,
    log_post db offer_id channel_id message_id now
    = Ok (mkDatabase (offers db) (users db) (referrals db) (posts db ++ [row]))
    /\ Post.offer_id row = offer_id
    /\ Post.channel_id row = channel_id
    /\ Post.message_id row = message_id.
Proof. unfold log_post. eexists. repeat split. Qed.

(** C2.  The [posts] table declares [FOREIGN KEY (offer_id) REFERENCES offers
    (id)], yet on a store without any offer [log_post] with offer id 999
    raises nothing and appends the row. *)
Theorem log_post_unknown_offer :
  offers init_database = []
  /\ log_post init_database (Some 999) "@trend" 42 100
     = Ok (mkDatabase [] [] [] [Post.mk (Some 1) (Some 999) 100 "@trend" 42]).
Proof. split; reflexivity. Qed.

Example log_post_stored_offer :
  exists db1 db2,
    save_offer init_database offer_zero 100 = Ok (db1, 1)
    /\ log_post db1 (Some 1) "@trend" 42 110 = Ok db2
    /\ map Offer.id (offers db2) = [Some 1]
    /\ posts db2 = [Post.mk (Some 1) (Some 1) 110 "@trend" 42].
Proof. do 2 eexists. repeat split. Qed.

(** ** The returning user *)










(** C8, as amended.  A user not yet stored passes a code that no stored user
    holds.  When the drawn code is free, [start_command] returns, one row is
    appended for the user, with the drawn code and the passed one as
    [referred_by], and every row stored before is as it was.  When the passed
    code is moreover not the drawn one, the new row has zero referrals and
    zero earnings, the [referrals] table is as before and nobody is
    notified. *)
Theorem start_command_unknown_code (db : Database) (user : TgUser.t)
    (code : string) (rest : list string) (token : string) (now : datetime) :
  get_user db (TgUser.id user) = None ->
  get_user_by_referral_code db code = None ->
  get_user_by_referral_code db ("LUX" ++ upper token)%string = None ->
  exists (db' : Database) (reply : Reply) (row : User.t),
    start_command db user (code :: rest) token now = Ok (db', reply)
    /\ users db' = users db ++ [row]
    /\ User.id row = Some (lastrowid (map User.id (users db)))
    /\ User.user_id row = TgUser.id user
    /\ User.referral_code row = ("LUX" ++ upper token)%string
    /\ User.referred_by row = Some code
    /\ get_user db' (TgUser.id user) = Some row
    /\ current_user reply = get_user db' (TgUser.id user)
    /\ (code <> ("LUX" ++ upper token)%string ->
        row
        = User.mk (Some (lastrowid (map User.id (users db)))) (TgUser.id user)
            (or_empty (TgUser.username user))
            (or_empty (TgUser.first_name user)) ("LUX" ++ upper token)%string
            (Some code) 0 0%float now now
        /\ referrals db' = referrals db
        /\ notified reply = None).
Proof.
  intros Hnew Hcode Hfresh.
  unfold start_command. rewrite Hnew. cbn [hd_error].
  rewrite save_user_insert by assumption.
  cbn [bind new_User User.user_id User.username User.first_name
       User.referral_code User.referred_by].
  set (row0 := User.mk (Some (lastrowid (map User.id (users db))))
                 (TgUser.id user) (or_empty (TgUser.username user))
                 (or_empty (TgUser.first_name user))
                 ("LUX" ++ upper token)%string (Some code) 0 0%float now now).
  assert (Hrow : forall row : User.t,
             User.user_id row = TgUser.id user ->
             find (fun u => User.user_id u =? TgUser.id user)
               (users db ++ [row]) = Some row).
  { intros row Hid. unfold get_user in Hnew. rewrite find_snoc, Hnew, Hid.
    rewrite Z.eqb_refl. reflexivity. }
  assert (Hplain :
    exists (db' : Database) (reply : Reply) (row : User.t),
      Ok (with_users db (users db ++ [row0]),
          mkReply (if opt_truthy (Some code) then new_with_referral else new)
            (get_user (with_users db (users db ++ [row0])) (TgUser.id user))
            None)
      = Ok (db', reply)
      /\ users db' = users db ++ [row]
      /\ User.id row = Some (lastrowid (map User.id (users db)))
      /\ User.user_id row = TgUser.id user
      /\ User.referral_code row = ("LUX" ++ upper token)%string
      /\ User.referred_by row = Some code
      /\ get_user db' (TgUser.id user) = Some row
      /\ current_user reply = get_user db' (TgUser.id user)
      /\ (code <> ("LUX" ++ upper token)%string ->
          row = row0 /\ referrals db' = referrals db
          /\ notified reply = None)).
  { exists (with_users db (users db ++ [row0])). eexists. exists row0.
    split; [reflexivity|].
    cbn [users referrals with_users notified current_user].
    repeat split. unfold get_user. cbn [users with_users].
    apply Hrow. reflexivity. }
  destruct (str_truthy code); [|exact Hplain].
  destruct (String.eqb_spec ("LUX" ++ upper token)%string code) as [E|E].
  - subst code.
    assert (Hself : get_user_by_referral_code
                      (with_users db (users db ++ [row0]))
                      ("LUX" ++ upper token)%string = Some row0).
    { unfold get_user_by_referral_code in *. cbn [users with_users].
      rewrite find_snoc, Hcode. unfold row0 at 1. cbn [User.referral_code].
      rewrite String.eqb_refl. reflexivity. }
    rewrite Hself. unfold save_referral.
    cbn [bind Referral.referrer_code Referral.reward_amount
         Referral.referred_user_id Referral.status users with_users offers
         referrals posts].
    rewrite map_app, (credit_no_match db _ 5%float Hcode).
    cbn [map].
    change (User.referral_code row0) with ("LUX" ++ upper token)%string.
    rewrite String.eqb_refl.
    do 2 eexists. exists (User.credit 5%float row0).
    split; [reflexivity|]. cbn [users current_user].
    split; [reflexivity|]. split; [reflexivity|]. split; [reflexivity|].
    split; [reflexivity|]. split; [reflexivity|].
    split; [unfold get_user; cbn [users]; apply Hrow; reflexivity|].
    split; [reflexivity|]. intros Hneq. contradiction Hneq. reflexivity.
  - assert (Hnone : get_user_by_referral_code
                      (with_users db (users db ++ [row0])) code = None).
    { unfold get_user_by_referral_code in *. cbn [users with_users].
      rewrite find_snoc, Hcode. unfold row0. cbn [User.referral_code].
      destruct (String.eqb_spec ("LUX" ++ upper token)%string code);
        [contradiction|reflexivity]. }
    rewrite Hnone. exact Hplain.
Qed.

Lemma start_command_unknown_code_witness :
  get_user db_alice (TgUser.id tg_bob) = None
  /\ get_user_by_referral_code db_alice "LUXDEADBEEF" = None
  /\ get_user_by_referral_code db_alice ("LUX" ++ upper "9f3e77a0")%string
     = None
  /\ "LUXDEADBEEF"%string <> ("LUX" ++ upper "9f3e77a0")%string
  /\ exists (db' : Database) (reply : Reply),
       start_command db_alice tg_bob ["LUXDEADBEEF"%string] "9f3e77a0" 200
       = Ok (db', reply)
       /\ users db'
          = [alice;
             User.mk (Some 2) 2 "bob" "Bob" "LUX9F3E77A0" (Some "LUXDEADBEEF"%string)
               0 0%float 200 200]
       /\ referrals db' = []
       /\ notified reply = None
       /\ current_user reply = get_user db' 2.
Proof.
  split; [reflexivity|]. split; [reflexivity|]. split; [reflexivity|].
  split; [discriminate|].
  destruct (start_command_unknown_code db_alice tg_bob "LUXDEADBEEF"%string []
              "9f3e77a0"%string 200 eq_refl eq_refl eq_refl)
    as (db' & reply & row & Hrun & Husers & _ & _ & _ & _ & _ & Hcur & Hneq).
  destruct Hneq as (Hrow & Hrefs & Hnot); [discriminate|].
  exists db', reply. split; [exact Hrun|].
  split; [rewrite Husers, Hrow; reflexivity|].
  split; [exact Hrefs|]. split; [exact Hnot|exact Hcur].
Defined.

(** C8, as stated, fails on both sides of the draw.  A draw that a stored
    user holds already (Alice's) makes the [INSERT] of the new row, and the
    handler with it, raise.  And a draw that is the passed code itself is
    found by the lookup, which runs after the new row is stored: a referral
    row is created and the new user, their own referrer, is credited. *)
Lemma start_command_unknown_code_counterexample :
  (get_user db_alice (TgUser.id tg_bob) = None
   /\ get_user_by_referral_code db_alice "LUXDEADBEEF" = None
   /\ start_command db_alice tg_bob ["LUXDEADBEEF"%string] "ab12cd34" 200
      = Raise (IntegrityError "UNIQUE constraint failed: users.referral_code"))
  /\ (get_user init_database (TgUser.id tg_bob) = None
      /\ get_user_by_referral_code init_database "LUX9F3E77A0" = None
      /\ exists (db' : Database) (reply : Reply),
           start_command init_database tg_bob ["LUX9F3E77A0"%string]
             "9f3e77a0" 200
           = Ok (db', reply)
           /\ referrals db'
              = [Referral.mk (Some 1) "LUX9F3E77A0" 2 5%float "confirmed" 200
                   200]
           /\ users db'
              = [User.mk (Some 1) 2 "bob" "Bob" "LUX9F3E77A0"
                   (Some "LUX9F3E77A0"%string) 1 5%float 200 200]
           /\ referrals db' <> referrals init_database).
Proof.
  split.
  - split; [reflexivity|]. split; reflexivity.
  - split; [reflexivity|]. split; [reflexivity|].
    do 2 eexists. split; [reflexivity|].
    split; [reflexivity|]. split; [reflexivity|]. discriminate.
Qed.

(** ** The order of REAL values *)

Ltac sf_signs :=
  repeat match goal with
         | b : bool |- _ => destruct b
         end;
  cbn; try discriminate; try reflexivity; auto.

Ltac sf_compare :=
  repeat match goal with
  | |- context [Z.compare ?a ?b] =>
      destruct (Z.compare_spec a b); subst; cbn in *; try discriminate; try lia
  | H : context [Z.compare ?a ?b] |- _ =>
      destruct (Z.compare_spec a b); subst; cbn in *; try discriminate; try lia
  | |- context [Pos.compare_cont Eq ?a ?b] =>
      change (Pos.compare_cont Eq a b) with (Pos.compare a b);
      destruct (Pos.compare_spec a b); subst; cbn in *; try discriminate;
      try lia
  | H : context [Pos.compare_cont Eq ?a ?b] |- _ =>
      change (Pos.compare_cont Eq a b) with (Pos.compare a b) in H;
      destruct (Pos.compare_spec a b); subst; cbn in *; try discriminate;
      try lia
  end.

Lemma SFleb_trans (x y z : spec_float) :
  SFleb x y = true -> SFleb y z = true -> SFleb x z = true.
Proof.
  unfold SFleb, SFcompare.
  destruct x as [sx|sx| |sx mx ex], y as [sy|sy| |sy my ey],
           z as [sz|sz| |sz mz ez];
    sf_signs; intros; sf_compare; auto.
Qed.

Lemma SFleb_total (x y : spec_float) :
  x <> S754_nan -> y <> S754_nan -> SFltb y x = false -> SFleb x y = true.
Proof.
  unfold SFleb, SFltb, SFcompare.
  destruct x as [sx|sx| |sx mx ex], y as [sy|sy| |sy my ey];
    sf_signs; intros; try congruence; sf_compare; auto.
Qed.

Lemma SFltb_leb (x y : spec_float) : SFltb x y = true -> SFleb x y = true.
Proof.
  unfold SFleb, SFltb. destruct (SFcompare x y) as [[| |]|];
    intros; try discriminate; reflexivity.
Qed.

Lemma not_nan_spec (x : float) :
  PrimFloat.is_nan x = false -> Prim2SF x <> S754_nan.
Proof.
  unfold PrimFloat.is_nan. rewrite eqb_spec. intros H E.
  rewrite E in H. discriminate.
Qed.

Lemma float_leb_trans (x y z : float) :
  PrimFloat.leb x y = true -> PrimFloat.leb y z = true ->
  PrimFloat.leb x z = true.
Proof. rewrite !leb_spec. apply SFleb_trans. Qed.

Lemma float_leb_total (x y : float) :
  PrimFloat.is_nan x = false -> PrimFloat.is_nan y = false ->
  PrimFloat.ltb y x = false -> PrimFloat.leb x y = true.
Proof.
  intros Hx Hy. rewrite ltb_spec, leb_spec.
  apply SFleb_total; apply not_nan_spec; assumption.
Qed.

Lemma float_ltb_leb (x y : float) :
  PrimFloat.ltb x y = true -> PrimFloat.leb x y = true.
Proof. rewrite ltb_spec, leb_spec. apply SFltb_leb. Qed.

Lemma real_le_trans (x y z : float) :
  real_le x y = true -> real_le y z = true -> real_le x z = true.
Proof.
  unfold real_le.
  destruct (PrimFloat.is_nan x); [reflexivity|].
  destruct (PrimFloat.is_nan y); [discriminate|].
  destruct (PrimFloat.is_nan z); [intros _ H; exact H|].
  apply float_leb_trans.
Qed.

Lemma real_le_total (x y : float) :
  real_lt y x = false -> real_le x y = true.
Proof.
  unfold real_lt, real_le.
  destruct (PrimFloat.is_nan x) eqn:Hx; [reflexivity|].
  destruct (PrimFloat.is_nan y) eqn:Hy; [discriminate|].
  apply float_leb_total; assumption.
Qed.

Lemma real_lt_le (x y : float) : real_lt x y = true -> real_le x y = true.
Proof.
  unfold real_lt, real_le.
  destruct (PrimFloat.is_nan y); [discriminate|].
  destruct (PrimFloat.is_nan x); [reflexivity|].
  apply float_ltb_leb.
Qed.

(** ** The leaderboard *)

Lemma leaderboard_ge_trans (a b c : User.t) :
  leaderboard_ge a b -> leaderboard_ge b c -> leaderboard_ge a c.
Proof.
  unfold leaderboard_ge. intros [Hab|[Hab Eab]] [Hbc|[Hbc Ebc]].
  - left. lia.
  - left. lia.
  - left. lia.
  - right. split; [congruence|]. eapply real_le_trans; eassumption.
Qed.

Lemma outranks_ge (a b : User.t) : outranks a b = true -> leaderboard_ge a b.
Proof.
  unfold outranks, leaderboard_ge. intros H.
  apply orb_true_iff in H. destruct H as [H|H].
  - left. lia.
  - apply andb_true_iff in H. destruct H as [Hc He].
    right. split; [lia|]. apply real_lt_le. exact He.
Qed.

Lemma not_outranks_ge (a b : User.t) :
  outranks b a = false -> leaderboard_ge a b.
Proof.
  unfold outranks, leaderboard_ge. intros H.
  apply orb_false_iff in H. destruct H as [Hc H].
  apply andb_false_iff in H.
  destruct (Z.eq_dec (User.referral_count a) (User.referral_count b))
    as [E|E]; [|left; lia].
  right. split; [exact E|].
  destruct H as [H|H]; [lia|].
  apply real_le_total. exact H.
Qed.

Lemma order_insert_Forall (P : User.t -> Prop) (x : User.t)
    (l : list User.t) :
  P x -> Forall P l -> Forall P (order_insert x l).
Proof.
  intros Hx Hl. induction Hl as [|y l Hy Hl IH]; cbn.
  - constructor; [exact Hx|constructor].
  - destruct (outranks y x); constructor; auto.
Qed.

Lemma order_by_Forall (P : User.t -> Prop) (l : list User.t) :
  Forall P l -> Forall P (order_by l).
Proof.
  intros Hl. induction Hl as [|x l Hx Hl IH]; cbn; [constructor|].
  apply order_insert_Forall; assumption.
Qed.

Lemma order_insert_HdRel (a x : User.t) (l : list User.t) :
  leaderboard_ge a x -> HdRel leaderboard_ge a l ->
  HdRel leaderboard_ge a (order_insert x l).
Proof.
  intros Hax Hal. destruct l as [|y l]; cbn.
  - constructor. exact Hax.
  - destruct (outranks y x); constructor.
    + inversion Hal; assumption.
    + exact Hax.
Qed.

Lemma order_insert_Sorted (x : User.t) (l : list User.t) :
  Sorted leaderboard_ge l -> Sorted leaderboard_ge (order_insert x l).
Proof.
  intros Hs. induction Hs as [|y l Hs IH Hhd]; cbn.
  - constructor; constructor.
  - destruct (outranks y x) eqn:E.
    + constructor; [exact IH|].
      apply order_insert_HdRel; [apply outranks_ge; exact E|exact Hhd].
    + constructor; [constructor; assumption|].
      constructor. apply not_outranks_ge. exact E.
Qed.

Lemma order_by_Sorted (l : list User.t) : Sorted leaderboard_ge (order_by l).
Proof.
  induction l as [|x l IH]; cbn; [constructor|].
  apply order_insert_Sorted. exact IH.
Qed.

Section Prefix.

Context {A : Type}.

Lemma firstn_Forall (P : A -> Prop) (n : nat) (l : list A) :
  Forall P l -> Forall P (firstn n l).
Proof.
  intros Hl. revert n. induction Hl as [|x l Hx Hl IH]; intros [|n]; cbn;
    constructor; auto.
Qed.

Lemma firstn_StronglySorted (R : A -> A -> Prop) (n : nat) (l : list A) :
  StronglySorted R l -> StronglySorted R (firstn n l).
Proof.
  intros Hl. revert n. induction Hl as [|x l Hl IH Hx]; intros [|n]; cbn;
    constructor; auto.
  apply firstn_Forall. exact Hx.
Qed.

Lemma sql_limit_Forall (P : A -> Prop) (n : Z) (l : list A) :
  Forall P l -> Forall P (sql_limit n l).
Proof.
  intros Hl. unfold sql_limit. destruct (n <? 0)%Z; [exact Hl|].
  apply firstn_Forall. exact Hl.
Qed.

Lemma sql_limit_StronglySorted (R : A -> A -> Prop) (n : Z) (l : list A) :
  StronglySorted R l -> StronglySorted R (sql_limit n l).
Proof.
  intros Hl. unfold sql_limit. destruct (n <? 0)%Z; [exact Hl|].
  apply firstn_StronglySorted. exact Hl.
Qed.

Lemma sql_limit_length (n : Z) (l : list A) :
  0 <= n -> Z.of_nat (List.length (sql_limit n l)) <= n.
Proof.
  intros Hn. unfold sql_limit.
  destruct (Z.ltb_spec n 0) as [Hlt|_]; [lia|].
  pose proof (firstn_le_length (Z.to_nat n) l) as Hlen. lia.
Qed.

End Prefix.

(** C5, as amended.  For every store and every limit, each row that
    [get_leaderboard] returns is a stored user with [referral_count > 0], and
    each row stands before every later one by more referrals or, with as
    many, by at least the earnings; for a limit that is not negative at most
    [limit] rows are returned. *)
Theorem get_leaderboard_sorted (db : Database) (limit : Z) :
  (0 <= limit -> Z.of_nat (List.length (get_leaderboard db limit)) <= limit)
  /\ Forall (fun u => In u (users db) /\ 0 < User.referral_count u)
       (get_leaderboard db limit)
  /\ StronglySorted leaderboard_ge (get_leaderboard db limit).
Proof.
  unfold get_leaderboard.
  split; [intros Hlimit; apply sql_limit_length; exact Hlimit|]. split.
  - apply sql_limit_Forall, order_by_Forall.
    apply Forall_forall. intros u Hu. apply filter_In in Hu.
    destruct Hu as [Hin Hpos]. split; [exact Hin|lia].
  - apply sql_limit_StronglySorted.
    apply Sorted_StronglySorted.
    + intros a b c. apply leaderboard_ge_trans.
    + apply order_by_Sorted.
Qed.

Lemma get_leaderboard_sorted_witness :
  get_leaderboard db_board 2 = [erin; carol]
  /\ 0 <= 2
  /\ Z.of_nat (List.length (get_leaderboard db_board 2)) <= 2
  /\ Forall (fun u => In u (users db_board) /\ 0 < User.referral_count u)
       (get_leaderboard db_board 2)
  /\ StronglySorted leaderboard_ge (get_leaderboard db_board 2).
Proof.
  split; [reflexivity|]. split; [lia|].
  destruct (get_leaderboard_sorted db_board 2) as (Hlen & Hrows & Hsorted).
  split; [apply Hlen; lia|]. split; [exact Hrows|exact Hsorted].
Defined.

(** C5, as stated, fails for a negative limit.  No list has at most -1
    rows; SQLite reads [LIMIT -1] as no limit, so the code does not come as
    near as an empty board either: the three credited users of the sample
    store are all returned, more rows than a limit of zero allows. *)
Lemma get_leaderboard_negative_limit_counterexample :
  get_leaderboard db_board (-1) = [erin; carol; dave]
  /\ get_leaderboard db_board 0 = []
  /\ ~ Z.of_nat (List.length (get_leaderboard db_board (-1))) <= Z.max 0 (-1)
  /\ ~ Z.of_nat (List.length (get_leaderboard db_board (-1))) <= -1.
Proof.
  split; [reflexivity|]. split; [reflexivity|]. split; cbn; lia.
Qed.

(** ** Strings *)

Local Open Scope string_scope.

Lemma append_assoc (a b c : string) : (a ++ b) ++ c = a ++ (b ++ c).
Proof.
  induction a as [|x a IH]; cbn; [reflexivity|]. rewrite IH. reflexivity.
Qed.

Lemma append_empty (a b : string) :
  a ++ b = EmptyString -> a = EmptyString /\ b = EmptyString.
Proof.
  destruct a; cbn; intros H; [split; [reflexivity|exact H]|discriminate].
Qed.

Lemma contains_here (pre sub suf : string) : contains (pre ++ sub ++ suf) sub.
Proof. exists pre, suf. reflexivity. Qed.

Lemma contains_append_l (s t sub : string) :
  contains s sub -> contains (s ++ t) sub.
Proof.
  intros (pre & suf & ->). exists pre, (suf ++ t).
  rewrite !append_assoc. reflexivity.
Qed.

Lemma contains_append_r (s t sub : string) :
  contains t sub -> contains (s ++ t) sub.
Proof.
  intros (pre & suf & ->). exists (s ++ pre), suf.
  rewrite !append_assoc. reflexivity.
Qed.

Local Close Scope string_scope.

(** ** [generate_post] *)

Lemma random_choice_ok {A : Type} (r : nat) (seq : list A) :
  seq <> [] -> exists x : A, random_choice r seq = Ok x.
Proof.
  intros Hne. unfold random_choice.
  destruct (nth_error seq (r mod List.length seq)) as [x|] eqn:E.
  - exists x. reflexivity.
  - exfalso. apply nth_error_None in E.
    assert (List.length seq <> 0%nat)
      by (destruct seq; [congruence|discriminate]).
    pose proof (Nat.mod_upper_bound r (List.length seq)). lia.
Qed.

Lemma category_emojis_nonempty (category : string) :
  dict_get emojis category ["🔥"%string] <> [].
Proof.
  unfold emojis. cbn [dict_get].
  repeat match goal with
         | |- context [String.eqb ?k category] => destruct (String.eqb k category)
         end; discriminate.
Qed.

(** C6.  Whatever the offer (with or without gravity), the draws and the
    built-in formatters, [generate_post] raises nothing and returns a text
    that is not empty and in which the title and the affiliate link occur. *)
Theorem generate_post_total (format_2f format_0f : float -> string)
    (str_title : string -> string) (offer : Offer.t) (d : Draws) :
  exists post : string,
    generate_post format_2f format_0f str_title offer d = Ok post
    /\ post <> EmptyString
    /\ contains post (Offer.title offer)
    /\ contains post (Offer.affiliate_link offer).
Proof.
  destruct (random_choice_ok (draw_emoji d)
              (dict_get emojis (Offer.category offer) ["🔥"%string])
              (category_emojis_nonempty _)) as [emoji He].
  destruct (random_choice_ok (draw_hook d) hooks) as [hook Hh];
    [discriminate|].
  destruct (random_choice_ok (draw_cta d) ctas) as [cta Hc]; [discriminate|].
  destruct (random_choice_ok (draw_urgency d) urgency_phrases) as [urg Hu];
    [discriminate|].
  unfold generate_post. rewrite He, Hh, Hc, Hu. cbn [bind].
  eexists. split; [reflexivity|].
  split; [|split].
  - intros H. apply append_empty in H. destruct H as [H _].
    apply append_empty in H. destruct H as [_ H]. discriminate H.
  - apply contains_append_l. do 3 apply contains_append_l.
    assert (Htitle : forall s : string,
               contains (s ++ ("🎯 **" ++ Offer.title offer ++ "**" ++ nl ++ nl))%string
                 (Offer.title offer)).
    { intros s. apply contains_append_r. apply contains_here. }
    destruct (Offer.gravity offer) as [g|];
      [destruct (float_truthy g)|];
      first [ do 3 apply contains_append_l; apply Htitle
            | do 4 apply contains_append_l; apply Htitle ].
  - apply contains_append_l. apply contains_append_r. apply contains_here.
Qed.

(** C10.  An offer whose gravity is zero is rendered as the same offer with
    no gravity at all: the test [if offer.gravity] is false for both, so the
    popularity line is left out. *)
Theorem generate_post_gravity_zero (format_2f format_0f : float -> string)
    (str_title : string -> string) (offer : Offer.t) (d : Draws) (g : float) :
  Offer.gravity offer = Some g ->
  PrimFloat.eqb g 0%float = true ->
  generate_post format_2f format_0f str_title offer d
  = generate_post format_2f format_0f str_title (Offer.set_gravity None offer) d.
Proof.
  intros Hg Hzero. unfold generate_post.
  cbn [Offer.set_gravity Offer.gravity Offer.category Offer.platform
       Offer.commission Offer.title Offer.description Offer.affiliate_link
       float_truthy].
  rewrite Hg. unfold float_truthy. rewrite Hzero. reflexivity.
Qed.

Lemma generate_post_gravity_zero_witness :
  Offer.gravity offer_zero = Some 0%float
  /\ PrimFloat.eqb 0%float 0%float = true
  /\ generate_post fixed_2f fixed_0f title_id offer_zero draws_0
     = generate_post fixed_2f fixed_0f title_id
         (Offer.set_gravity None offer_zero) draws_0.
Proof.
  split; [reflexivity|]. split; [reflexivity|].
  apply (generate_post_gravity_zero fixed_2f fixed_0f title_id offer_zero
           draws_0 0%float); reflexivity.
Defined.

(** ** The methods on the sample rows *)

Example start_command_alice_then_bob :
  exists db1 r1 db2 r2,
    start_command init_database tg_alice [] "ab12cd34" 100 = Ok (db1, r1)
    /\ start_command db1 tg_bob ["LUXAB12CD34"%string] "9f3e77a0" 200
       = Ok (db2, r2)
    /\ users db2
       = [User.mk (Some 1) 1 "alice" "Alice" "LUXAB12CD34" None 1 5%float
            100 100;
          User.mk (Some 2) 2 "bob" "Bob" "LUX9F3E77A0"
            (Some "LUXAB12CD34"%string) 0 0%float 200 200]
    /\ referrals db2
       = [Referral.mk (Some 1) "LUXAB12CD34" 2 5%float "confirmed" 200 200]
    /\ notified r2 = Some alice.
Proof. do 4 eexists. repeat split. Qed.

(** The draw is not compared with the stored codes before the [INSERT]: a
    draw that is taken makes [save_user], and the handler with it, raise. *)
Example start_command_draw_taken :
  start_command db_alice tg_bob [] "ab12cd34" 200
  = Raise (IntegrityError "UNIQUE constraint failed: users.referral_code").
Proof. reflexivity. Qed.

(** The passed code is looked up after the new row is stored: a user passing
    the very code the draw gives them is their own referrer. *)
Example start_command_own_draw :
  exists db' reply,
    start_command init_database tg_bob ["LUX9F3E77A0"%string] "9f3e77a0" 200
    = Ok (db', reply)
    /\ users db'
       = [User.mk (Some 1) 2 "bob" "Bob" "LUX9F3E77A0"
            (Some "LUX9F3E77A0"%string) 1 5%float 200 200]
    /\ List.length (referrals db') = 1%nat.
Proof. do 2 eexists. repeat split. Qed.

Example get_leaderboard_zero_limit : get_leaderboard db_board 0 = [].
Proof. reflexivity. Qed.

(** With a gravity that is not zero the popularity line is there. *)
Example generate_post_gravity_50 :
  generate_post fixed_2f fixed_0f title_id
    (Offer.set_gravity (Some 50%float) offer_zero) draws_0
  = Ok (String.concat nl
          [ "💡 **💰 EXCLUSIVE DEAL DISCOVERED!** 💡"; EmptyString;
            "🎯 **AI Weekly Insider**"; EmptyString;
            "💵 **Earn**: $4.50 per subscriber";
            "⭐ **Platform**: SparkLoop";
            "📈 **Category**: ai tools";
            "🔥 **Popularity**: 50/100"; EmptyString;
            "Weekly newsletter."; EmptyString;
            "👆 CLICK TO CLAIM YOUR OPPORTUNITY";
            "🔗 https://trendbot.link/sparkloop/1?ref=trendbot"; EmptyString;
            "⚡ *High demand - Secure your spot!*" ]%string).
Proof. reflexivity. Qed.

Example generate_post_gravity_0 :
  generate_post fixed_2f fixed_0f title_id offer_zero draws_0
  = Ok (String.concat nl
          [ "💡 **💰 EXCLUSIVE DEAL DISCOVERED!** 💡"; EmptyString;
            "🎯 **AI Weekly Insider**"; EmptyString;
            "💵 **Earn**: $4.50 per subscriber";
            "⭐ **Platform**: SparkLoop";
            "📈 **Category**: ai tools"; EmptyString;
            "Weekly newsletter."; EmptyString;
            "👆 CLICK TO CLAIM YOUR OPPORTUNITY";
            "🔗 https://trendbot.link/sparkloop/1?ref=trendbot"; EmptyString;
            "⚡ *High demand - Secure your spot!*" ]%string).
Proof. reflexivity. Qed.

(** * Further properties *)

(** ** Sorting and limits *)

Section Ordering.

Context {A : Type} (key : A -> Z).

Lemma insert_desc_perm (x : A) (l : list A) :
  Permutation (insert_desc key x l) (x :: l).
Proof.
  induction l as [|y l IH]; cbn; [reflexivity|].
  destruct (key x <? key y)%Z; [|reflexivity].
  rewrite IH. apply perm_swap.
Qed.

Lemma order_desc_perm (l : list A) : Permutation (order_desc key l) l.
Proof.
  induction l as [|x l IH]; cbn; [reflexivity|].
  rewrite insert_desc_perm. apply perm_skip. exact IH.
Qed.

Lemma insert_desc_sorted (x : A) (l : list A) :
  StronglySorted (fun a b => key b <= key a) l ->
  StronglySorted (fun a b => key b <= key a) (insert_desc key x l).
Proof.
  intros Hs. induction Hs as [|y l Hs IH Hy]; cbn.
  - constructor; constructor.
  - destruct (Z.ltb_spec (key x) (key y)) as [Hlt|Hge].
    + constructor; [exact IH|].
      apply Forall_forall. intros z Hz.
      apply (Permutation_in _ (insert_desc_perm x l)) in Hz.
      destruct Hz as [<-|Hz]; [lia|].
      revert z Hz. apply Forall_forall. exact Hy.
    + constructor; [constructor; assumption|].
      constructor; [exact Hge|].
      apply Forall_forall. intros z Hz.
      assert (key z <= key y) by (revert z Hz; apply Forall_forall; exact Hy).
      lia.
Qed.

Lemma order_desc_sorted (l : list A) :
  StronglySorted (fun a b => key b <= key a) (order_desc key l).
Proof.
  induction l as [|x l IH]; cbn; [constructor|].
  apply insert_desc_sorted. exact IH.
Qed.

End Ordering.

Section Limit.

Context {A : Type}.

Lemma sql_limit_all (n : Z) (l : list A) :
  n < 0 \/ Z.of_nat (List.length l) <= n -> sql_limit n l = l.
Proof.
  intros H. unfold sql_limit. destruct (Z.ltb_spec n 0) as [_|Hn];
    [reflexivity|].
  apply firstn_all2. lia.
Qed.

Lemma sql_limit_split (n : Z) (l : list A) :
  exists rest : list A, l = sql_limit n l ++ rest.
Proof.
  unfold sql_limit. destruct (n <? 0)%Z.
  - exists []. symmetry. apply app_nil_r.
  - exists (skipn (Z.to_nat n) l). symmetry. apply firstn_skipn.
Qed.

Lemma sql_limit_In (n : Z) (l : list A) (x : A) :
  In x (sql_limit n l) -> In x l.
Proof.
  intros H. destruct (sql_limit_split n l) as [rest E].
  rewrite E. apply in_or_app. left. exact H.
Qed.

Lemma sql_limit_nonempty (n : Z) (l : list A) :
  0 < n -> l <> [] -> sql_limit n l <> [].
Proof.
  intros Hn Hl. unfold sql_limit. destruct (Z.ltb_spec n 0); [exact Hl|].
  destruct l as [|x l]; [congruence|].
  destruct (Z.to_nat n) eqn:E; [lia|]. discriminate.
Qed.

Lemma StronglySorted_app_cross (R : A -> A -> Prop) (l1 l2 : list A)
    (x y : A) :
  StronglySorted R (l1 ++ l2) -> In x l1 -> In y l2 -> R x y.
Proof.
  induction l1 as [|z l1 IH]; cbn; intros Hs Hx Hy; [contradiction|].
  inversion Hs as [|? ? Hs' Hz]; subst.
  destruct Hx as [->|Hx]; [|apply IH; assumption].
  eapply Forall_forall in Hz; [exact Hz|].
  apply in_or_app. right. exact Hy.
Qed.

End Limit.

Lemma order_insert_perm (x : User.t) (l : list User.t) :
  Permutation (order_insert x l) (x :: l).
Proof.
  induction l as [|y l IH]; cbn; [reflexivity|].
  destruct (outranks y x); [|reflexivity].
  rewrite IH. apply perm_swap.
Qed.

Lemma order_by_perm (l : list User.t) : Permutation (order_by l) l.
Proof.
  induction l as [|x l IH]; cbn; [reflexivity|].
  rewrite order_insert_perm. apply perm_skip. exact IH.
Qed.

Lemma order_by_StronglySorted (l : list User.t) :
  StronglySorted leaderboard_ge (order_by l).
Proof.
  apply Sorted_StronglySorted.
  - intros a b c. apply leaderboard_ge_trans.
  - apply order_by_Sorted.
Qed.

(** ** [save_user] and the two lookups *)

Lemma find_some_not_none {A : Type} (p : A -> bool) (l : list A) (x : A) :
  In x l -> p x = true -> find p l <> None.
Proof.
  intros Hin Hp Hnone. apply (find_none _ _ Hnone) in Hin. congruence.
Qed.

Lemma find_existsb {A : Type} (p : A -> bool) (l : list A) :
  existsb p l = true <-> find p l <> None.
Proof.
  induction l as [|x l IH]; cbn; [split; [discriminate|congruence]|].
  destruct (p x); cbn; [split; [discriminate|reflexivity]|exact IH].
Qed.

(** X1.  A user whose [user_id] and [referral_code] are not stored yet is
    stored by [save_user] and found again under both keys: the row carries the
    returned id and the object's names, code and referrer, starts with no
    referrals and no earnings whatever the object says, and the lookups of
    every other [user_id] answer as before. *)
Theorem save_user_then_lookup (db : Database) (user : User.t) (now : datetime) :
  get_user db (User.user_id user) = None ->
  get_user_by_referral_code db (User.referral_code user) = None ->
  exists (db' : Database) (id : Z) (row : User.t),
    save_user db user now = Ok (db', id)
    /\ get_user db' (User.user_id user) = Some row
    /\ get_user_by_referral_code db' (User.referral_code user) = Some row
    /\ row = User.mk (Some id) (User.user_id user) (User.username user)
               (User.first_name user) (User.referral_code user)
               (User.referred_by user) 0 0%float now now
    /\ (forall other : Z, other <> User.user_id user ->
        get_user db' other = get_user db other).
Proof.
  intros Hu Hc. rewrite (save_user_insert _ _ _ Hu Hc).
  do 3 eexists. split; [reflexivity|].
  unfold get_user, get_user_by_referral_code in *. cbn [users with_users].
  rewrite !find_snoc, Hu, Hc. cbn [User.user_id User.referral_code].
  rewrite Z.eqb_refl, String.eqb_refl.
  split; [reflexivity|]. split; [reflexivity|]. split; [reflexivity|].
  intros other Hother. rewrite find_snoc. cbn [User.user_id].
  destruct (find (fun u => (User.user_id u =? other)%Z) (users db));
    [reflexivity|].
  destruct (Z.eqb_spec (User.user_id user) other); [congruence|reflexivity].
Qed.

Lemma save_user_then_lookup_witness :
  get_user db_alice 2 = None
  /\ get_user_by_referral_code db_alice "LUX000000C2" = None
  /\ exists (db' : Database) (id : Z) (row : User.t),
       save_user db_alice carol 200 = Ok (db', id)
       /\ get_user db' 2 = Some row
       /\ get_user_by_referral_code db' "LUX000000C2" = Some row
       /\ row = User.mk (Some id) 2 "carol" "Carol" "LUX000000C2" None 0
                  0%float 200 200
       /\ (forall other : Z, other <> 2 ->
           get_user db' other = get_user db_alice other).
Proof.
  split; [reflexivity|]. split; [reflexivity|].
  apply (save_user_then_lookup db_alice carol 200); reflexivity.
Defined.

(** X2.  [save_user] raises exactly when the [user_id] is not stored and the
    [referral_code] is held by a stored user, and what it raises then is the
    [IntegrityError] of the [UNIQUE] constraint on [referral_code]. *)
Theorem save_user_raises_iff (db : Database) (user : User.t) (now : datetime)
    (e : exn) :
  save_user db user now = Raise e
  <-> (get_user db (User.user_id user) = None
       /\ get_user_by_referral_code db (User.referral_code user) <> None
       /\ e = IntegrityError
                "UNIQUE constraint failed: users.referral_code").
Proof.
  unfold save_user, get_user, get_user_by_referral_code.
  destruct (find _ (users db)) as [existing|] eqn:Hu.
  - split; [discriminate|]. intros [H _]. discriminate H.
  - destruct (existsb _ (users db)) eqn:Hc.
    + apply find_existsb in Hc. split.
      * intros H. injection H as <-. repeat split. exact Hc.
      * intros (_ & _ & ->). reflexivity.
    + split; [discriminate|]. intros (_ & H & _).
      apply find_existsb in H. congruence.
Qed.

Lemma save_user_raises_iff_witness :
  save_user db_alice
    (User.mk None 2 "bob" "Bob" "LUXAB12CD34" None 0 0%float 200 200) 200
  = Raise (IntegrityError "UNIQUE constraint failed: users.referral_code").
Proof.
  apply (save_user_raises_iff db_alice
           (User.mk None 2 "bob" "Bob" "LUXAB12CD34" None 0 0%float 200 200)
           200).
  split; [reflexivity|]. split; [discriminate|reflexivity].
Defined.

(** ** The leaderboard *)

(** X3.  The leaderboard is the top of the ranking: a user on it stands
    before every credited user who is left off it. *)
Theorem get_leaderboard_top (db : Database) (limit : Z) (u v : User.t) :
  In u (get_leaderboard db limit) ->
  In v (users db) ->
  0 < User.referral_count v ->
  ~ In v (get_leaderboard db limit) ->
  leaderboard_ge u v.
Proof.
  intros Hu Hv Hpos Hoff. unfold get_leaderboard in *.
  set (ranked := order_by (filter (fun u => 0 <? User.referral_count u)
                                  (users db))) in *.
  destruct (sql_limit_split limit ranked) as [rest Hsplit].
  assert (Hin : In v ranked).
  { apply (Permutation_in _ (Permutation_sym (order_by_perm _))).
    apply filter_In. split; [exact Hv|]. apply Z.ltb_lt. exact Hpos. }
  rewrite Hsplit in Hin. apply in_app_or in Hin.
  destruct Hin as [Hin|Hin]; [contradiction|].
  apply (StronglySorted_app_cross leaderboard_ge (sql_limit limit ranked) rest);
    [|exact Hu|exact Hin].
  rewrite <- Hsplit. apply order_by_StronglySorted.
Qed.

Lemma get_leaderboard_top_witness :
  In carol (get_leaderboard db_board 2)
  /\ In dave (users db_board)
  /\ ~ In dave (get_leaderboard db_board 2)
  /\ leaderboard_ge carol dave.
Proof.
  assert (Hoff : ~ In dave (get_leaderboard db_board 2)).
  { cbn. intros [H|[H|[]]]; discriminate H. }
  split; [right; left; reflexivity|].
  split; [cbn; tauto|]. split; [exact Hoff|].
  apply (get_leaderboard_top db_board 2 carol dave);
    [right; left; reflexivity|cbn; tauto|reflexivity|exact Hoff].
Defined.

(** X4.  With a negative limit, or one that is not below the number of
    credited users, the leaderboard holds every credited user once for each of
    their rows and nobody else. *)
Theorem get_leaderboard_complete (db : Database) (limit : Z) :
  limit < 0
  \/ Z.of_nat (List.length (filter (fun u => 0 <? User.referral_count u)
                                   (users db))) <= limit ->
  Permutation (get_leaderboard db limit)
    (filter (fun u => 0 <? User.referral_count u) (users db)).
Proof.
  intros Hlimit. unfold get_leaderboard.
  rewrite sql_limit_all; [apply order_by_perm|].
  destruct Hlimit as [H|H]; [left; exact H|right].
  rewrite (Permutation_length (order_by_perm _)). exact H.
Qed.

Lemma get_leaderboard_complete_witness :
  Permutation (get_leaderboard db_board 3) [carol; dave; erin].
Proof.
  apply (get_leaderboard_complete db_board 3). right. cbn. lia.
Defined.

(** ** [get_offers] and [get_referrals] *)

(** X5.  For a limit that is not negative [get_offers] returns at most
    [limit] stored offers, the newest first; with a category that is true
    they all have that category, and an empty category string filters as
    little as no category. *)
Theorem get_offers_newest_first (db : Database) (limit : Z)
    (category : option string) :
  0 <= limit ->
  Z.of_nat (List.length (get_offers db limit category)) <= limit
  /\ Forall (fun o => In o (offers db)
                      /\ (if opt_truthy category
                          then Offer.category o = or_empty category
                          else True))
       (get_offers db limit category)
  /\ StronglySorted (fun a b => Offer.created_at b <= Offer.created_at a)
       (get_offers db limit category)
  /\ get_offers db limit (Some EmptyString) = get_offers db limit None.
Proof.
  intros Hlimit. unfold get_offers.
  split; [destruct (opt_truthy category); apply sql_limit_length; exact Hlimit|].
  split; [|split; [|reflexivity]].
  - apply Forall_forall. intros o Ho.
    destruct (opt_truthy category); apply sql_limit_In in Ho;
      apply (Permutation_in _ (order_desc_perm _ _)) in Ho.
    + apply filter_In in Ho. destruct Ho as [Hin Hc].
      split; [exact Hin|]. apply String.eqb_eq. exact Hc.
    + split; [exact Ho|exact I].
  - destruct (opt_truthy category); apply sql_limit_StronglySorted;
      apply order_desc_sorted.
Qed.

(** X6.  [get_referrals] returns the referral rows that name the code, all of
    them and no other row, the newest first. *)
Theorem get_referrals_of_code (db : Database) (referrer_code : string) :
  Permutation (get_referrals db referrer_code)
    (filter (fun r => String.eqb (Referral.referrer_code r) referrer_code)
            (referrals db))
  /\ Forall (fun r => In r (referrals db)
                      /\ Referral.referrer_code r = referrer_code)
       (get_referrals db referrer_code)
  /\ StronglySorted
       (fun a b => Referral.created_at b <= Referral.created_at a)
       (get_referrals db referrer_code).
Proof.
  unfold get_referrals. split; [apply order_desc_perm|]. split.
  - apply Forall_forall. intros r Hr.
    apply (Permutation_in _ (order_desc_perm _ _)) in Hr.
    apply filter_In in Hr. destruct Hr as [Hin Hc].
    split; [exact Hin|]. apply String.eqb_eq. exact Hc.
  - apply order_desc_sorted.
Qed.

(** X7.  A referral saved by [save_referral] is read back by [get_referrals]
    under its code, next to the rows that were there, with the returned id;
    under every other code [get_referrals] answers as before. *)
Theorem save_referral_then_get_referrals (db : Database)
    (referral : Referral.t) (now : datetime) :
  exists (db' : Database) (id : Z),
    save_referral db referral now = Ok (db', id)
    /\ Permutation (get_referrals db' (Referral.referrer_code referral))
         (Referral.mk (Some id) (Referral.referrer_code referral)
            (Referral.referred_user_id referral)
            (Referral.reward_amount referral) (Referral.status referral)
            now now
          :: get_referrals db (Referral.referrer_code referral))
    /\ (forall code : string,
        code <> Referral.referrer_code referral ->
        get_referrals db' code = get_referrals db code).
Proof.
  unfold save_referral. do 2 eexists. split; [reflexivity|].
  unfold get_referrals. cbn [referrals]. split.
  - rewrite order_desc_perm, filter_app. cbn [filter Referral.referrer_code].
    rewrite String.eqb_refl.
    rewrite <- Permutation_cons_append. apply perm_skip.
    symmetry. apply order_desc_perm.
  - intros code Hcode. rewrite filter_app. cbn [filter Referral.referrer_code].
    destruct (String.eqb_spec (Referral.referrer_code referral) code);
      [congruence|].
    rewrite app_nil_r. reflexivity.
Qed.

(** ** What every handler is made of *)

(** A property of the store that the four writing methods keep is kept by
    the handlers, and so holds in every store the bot reaches.  The referral
    of [/start] is saved for a user the same call has just stored, under a
    code that resolves. *)
Section Preservation.

Variable P : Database -> Prop.

Hypothesis P_save_user :
  forall (db : Database) (u : User.t) (now : datetime) (db' : Database)
         (id : Z),
    P db -> save_user db u now = Ok (db', id) -> P db'.

Hypothesis P_save_referral :
  forall (db db1 db2 : Database) (u referrer : User.t) (now : datetime)
         (id rid : Z) (code : string),
    P db ->
    get_user db (User.user_id u) = None ->
    save_user db u now = Ok (db1, id) ->
    get_user_by_referral_code db1 code = Some referrer ->
    save_referral db1
      (Referral.mk None code (User.user_id u) 5%float "confirmed" now now) now
    = Ok (db2, rid) ->
    P db2.

Hypothesis P_save_offer :
  forall (db : Database) (o : Offer.t) (now : datetime) (db' : Database)
         (id : Z),
    P db -> save_offer db o now = Ok (db', id) -> P db'.

Hypothesis P_log_post :
  forall (db : Database) (offer_id : option Z) (channel : string)
         (message_id : Z) (now : datetime) (db' : Database),
    P db -> log_post db offer_id channel message_id now = Ok db' -> P db'.

Lemma start_command_preserves (db : Database) (user : TgUser.t)
    (args : list string) (token : string) (now : datetime) (db' : Database)
    (reply : Reply) :
  P db -> start_command db user args token now = Ok (db', reply) -> P db'.
Proof.
  intros HP H. unfold start_command in H.
  destruct (get_user db (TgUser.id user)) as [e|] eqn:He.
  - destruct (save_user db (User.set_last_active now e) now)
      as [[db1 id]|err] eqn:Hs; [|discriminate H].
    cbn [bind] in H. injection H as <- _.
    eapply P_save_user; eassumption.
  - set (new_user := new_User (TgUser.id user)
                       (or_empty (TgUser.username user))
                       (or_empty (TgUser.first_name user)) (hd_error args)
                       token now) in *.
    destruct (save_user db new_user now) as [[db1 id]|err] eqn:Hs;
      [|discriminate H].
    cbn [bind] in H.
    assert (HP1 : P db1) by (eapply P_save_user; eassumption).
    destruct (hd_error args) as [code|]; cbn [bind] in H;
      [|injection H as <- _; exact HP1].
    destruct (str_truthy code); cbn [bind] in H;
      [|injection H as <- _; exact HP1].
    destruct (get_user_by_referral_code db1 code) as [referrer|] eqn:Hr;
      cbn [bind] in H; [|injection H as <- _; exact HP1].
    destruct (save_referral db1 _ now) as [[db2 rid]|err] eqn:Hsr;
      [|discriminate H].
    cbn [bind] in H. injection H as <- _.
    eapply (P_save_referral db db1 db2 new_user referrer now id rid code);
      eassumption.
Qed.

Lemma referral_command_preserves (db : Database) (user : TgUser.t)
    (token : string) (now : datetime) :
  P db -> P (fst (referral_command db user token now)).
Proof.
  intros HP. unfold referral_command.
  destruct (get_user db (TgUser.id user)) as [e|] eqn:He; [exact HP|].
  destruct (save_user db _ now) as [[db1 id]|err] eqn:Hs; [|exact HP].
  assert (HP1 : P db1) by (eapply P_save_user; eassumption).
  destruct (get_user db1 (TgUser.id user)); exact HP1.
Qed.

Lemma save_offers_preserves (new_offers : list Offer.t) (db : Database)
    (stats : Stats) (now : datetime) :
  P db -> P (fst (fst (save_offers db stats new_offers now))).
Proof.
  revert db stats. induction new_offers as [|o l IH]; intros db stats HP;
    cbn [save_offers fst]; [exact HP|].
  destruct (save_offer db o now) as [[db1 id]|err] eqn:Hs; [|exact HP].
  apply IH. eapply P_save_offer; eassumption.
Qed.

Lemma post_to_channel_preserves (db : Database) (stats : Stats)
    (channel : string) (gen : nat -> OfferDraw) (pick : nat) (d : Draws)
    (format_2f format_0f : float -> string) (str_title : string -> string)
    (sent : option Z) (now : datetime) :
  P db ->
  P (fst (post_to_channel db stats channel gen pick d format_2f format_0f
            str_title sent now)).
Proof.
  intros HP. unfold post_to_channel.
  assert (Hpublish : forall (db0 : Database) (stats0 : Stats) (stored : bool)
                            (l : list Offer.t),
             P db0 ->
             P (fst match random_choice pick l with
                    | Raise _ => (db0, stats0)
                    | Ok offer =>
                        match (if stored
                               then generate_post_stored format_2f format_0f
                                      str_title offer d
                               else Some (generate_post format_2f format_0f
                                            str_title offer d))
                        with
                        | None => (db0, stats0)
                        | Some (Raise _) => (db0, stats0)
                        | Some (Ok _) =>
                            match sent with
                            | None => (db0, stats0)
                            | Some message_id =>
                                match log_post db0 (Offer.id offer) channel
                                        message_id now with
                                | Raise _ => (db0, stats0)
                                | Ok db1 =>
                                    (db1,
                                     mkStats (posts_sent stats0 + 1)
                                       (offers_generated stats0)
                                       (bot_started stats0))
                                end
                            end
                        end
                    end)).
  { intros db0 stats0 stored l HP0.
    destruct (random_choice pick l) as [offer|]; [|exact HP0].
    destruct (if stored then _ else _) as [[post|]|]; try exact HP0.
    destruct sent as [mid|]; [|exact HP0].
    destruct (log_post db0 (Offer.id offer) channel mid now) as [db1|] eqn:Hl;
      [|exact HP0].
    eapply P_log_post; eassumption. }
  destruct (get_offers db 10 None) as [|o l].
  - destruct (generate_offers 20 gen now) as [new_offers|]; [|exact HP].
    pose proof (save_offers_preserves new_offers db stats now HP) as HP1.
    destruct (save_offers db stats new_offers now) as [[db1 stats1] [e|]];
      cbn [fst] in HP1; [exact HP1|].
    apply (Hpublish db1 stats1 false). exact HP1.
  - apply (Hpublish db stats true). exact HP.
Qed.

Lemma start_bot_preserves (db : Database) (stats : Stats)
    (bot_token channel_id : option string) (gen : nat -> OfferDraw)
    (now : datetime) (db' : Database) (stats' : Stats) :
  P db ->
  start_bot db stats bot_token channel_id gen now = Ok (Some (db', stats')) ->
  P db'.
Proof.
  intros HP H. unfold start_bot in H.
  destruct (negb (opt_truthy bot_token)); [discriminate H|].
  destruct (negb (opt_truthy channel_id)); [discriminate H|].
  destruct (get_offers db 1 None) as [|o l].
  - destruct (generate_offers 30 gen now) as [initial_offers|];
      [|discriminate H].
    cbn [bind] in H.
    pose proof (save_offers_preserves initial_offers db stats now HP) as HP1.
    destruct (save_offers db stats initial_offers now)
      as [[db1 stats1] [e|]]; [discriminate H|].
    injection H as <- _. exact HP1.
  - injection H as <- _. exact HP.
Qed.

Lemma reachable_preserves (db : Database) :
  P init_database -> reachable db -> P db.
Proof.
  intros Hinit Hr. induction Hr as
    [| db user args token now db' reply _ IH H
     | db user token now _ IH
     | db stats channel gen pick d f2 f0 ti sent now _ IH
     | db stats tok ch gen now db' stats' _ IH H].
  - exact Hinit.
  - eapply start_command_preserves; eassumption.
  - apply referral_command_preserves. exact IH.
  - apply post_to_channel_preserves. exact IH.
  - eapply start_bot_preserves; eassumption.
Qed.

End Preservation.

(** ** Keys and row ids *)

Lemma NoDup_snoc {A : Type} (l : list A) (x : A) :
  NoDup l -> ~ In x l -> NoDup (l ++ [x]).
Proof.
  intros Hl Hx. apply (Permutation_NoDup (Permutation_cons_append l x)).
  constructor; assumption.
Qed.

Lemma lastrowid_above (ids : list (option Z)) (i : option Z) :
  In i ids -> rowid i < lastrowid ids.
Proof.
  unfold lastrowid. induction ids as [|j ids IH]; cbn [map fold_right In];
    [contradiction|].
  intros [->|Hin]; [lia|]. specialize (IH Hin). lia.
Qed.

Lemma lastrowid_fresh (ids : list (option Z)) :
  ~ In (Some (lastrowid ids)) ids.
Proof.
  intros Hin. apply lastrowid_above in Hin. cbn [rowid] in Hin. lia.
Qed.

Lemma get_user_none_not_stored (db : Database) (uid : Z) :
  get_user db uid = None -> ~ In uid (map User.user_id (users db)).
Proof.
  unfold get_user. intros Hnone Hin. apply in_map_iff in Hin.
  destruct Hin as (u & Hu & Hin). apply (find_none _ _ Hnone) in Hin.
  cbn in Hin. lia.
Qed.

Lemma code_none_not_stored (db : Database) (code : string) :
  get_user_by_referral_code db code = None ->
  ~ In code (map User.referral_code (users db)).
Proof.
  unfold get_user_by_referral_code. intros Hnone Hin. apply in_map_iff in Hin.
  destruct Hin as (u & Hu & Hin). apply (find_none _ _ Hnone) in Hin.
  cbn in Hin. rewrite Hu, String.eqb_refl in Hin. discriminate.
Qed.

(** The two ways [save_user] returns. *)
Lemma save_user_ok_cases (db db' : Database) (u : User.t) (now : datetime)
    (id : Z) :
  save_user db u now = Ok (db', id) ->
  (get_user db (User.user_id u) <> None
   /\ db' = with_users db
             (map (fun v => if (User.user_id v =? User.user_id u)%Z
                            then User.touch (User.username u)
                                   (User.first_name u) now v
                            else v) (users db)))
  \/ (get_user db (User.user_id u) = None
      /\ get_user_by_referral_code db (User.referral_code u) = None
      /\ db' = with_users db
                (users db ++
                 [User.mk (Some (lastrowid (map User.id (users db))))
                    (User.user_id u) (User.username u) (User.first_name u)
                    (User.referral_code u) (User.referred_by u) 0 0%float
                    now now])).
Proof.
  unfold save_user, get_user, get_user_by_referral_code. intros H.
  destruct (find _ (users db)) as [e|] eqn:Hu.
  - left. injection H as <- _. split; [discriminate|reflexivity].
  - right. destruct (existsb _ (users db)) eqn:Hc; [discriminate H|].
    injection H as <- _. split; [reflexivity|]. split; [|reflexivity].
    destruct (find (fun v => String.eqb (User.referral_code v)
                               (User.referral_code u)) (users db)) eqn:Hf;
      [|reflexivity].
    assert (Hne : find (fun v => String.eqb (User.referral_code v)
                                   (User.referral_code u)) (users db) <> None)
      by (rewrite Hf; discriminate).
    apply find_existsb in Hne. congruence.
Qed.

Lemma map_touch_key {B : Type} (key : User.t -> B) (uid : Z) (n f : string)
    (now : datetime) (l : list User.t) :
  (forall v, key (User.touch n f now v) = key v) ->
  map key (map (fun v => if (User.user_id v =? uid)%Z
                         then User.touch n f now v else v) l)
  = map key l.
Proof.
  intros Hk. rewrite map_map. apply map_ext. intros v.
  destruct (User.user_id v =? uid)%Z; [apply Hk|reflexivity].
Qed.

Lemma map_credit_key {B : Type} (key : User.t -> B) (code : string)
    (reward : float) (l : list User.t) :
  (forall v, key (User.credit reward v) = key v) ->
  map key (map (fun v => if String.eqb (User.referral_code v) code
                         then User.credit reward v else v) l)
  = map key l.
Proof.
  intros Hk. rewrite map_map. apply map_ext. intros v.
  destruct (String.eqb (User.referral_code v) code); [apply Hk|reflexivity].
Qed.

Lemma keys_rowids_save_user (db db' : Database) (u : User.t) (now : datetime)
    (id : Z) :
  keys_ok db /\ rowids_ok db -> save_user db u now = Ok (db', id) ->
  keys_ok db' /\ rowids_ok db'.
Proof.
  intros [[Hk1 Hk2] (Hr1 & Hr2 & Hr3 & Hr4)] H.
  apply save_user_ok_cases in H.
  destruct H as [[_ ->]|(Hu & Hc & ->)];
    unfold keys_ok, rowids_ok; cbn [users offers referrals posts with_users].
  - rewrite !map_touch_key by reflexivity. repeat split; assumption.
  - rewrite !map_app. cbn [map User.user_id User.referral_code User.id].
    repeat split; try assumption; apply NoDup_snoc; try assumption.
    + apply get_user_none_not_stored. exact Hu.
    + apply code_none_not_stored. exact Hc.
    + apply lastrowid_fresh.
Qed.

Lemma keys_rowids_save_referral (db db' : Database) (r : Referral.t)
    (now : datetime) (id : Z) :
  keys_ok db /\ rowids_ok db -> save_referral db r now = Ok (db', id) ->
  keys_ok db' /\ rowids_ok db'.
Proof.
  intros [[Hk1 Hk2] (Hr1 & Hr2 & Hr3 & Hr4)] H.
  unfold save_referral in H. injection H as <- _.
  unfold keys_ok, rowids_ok. cbn [users offers referrals posts].
  rewrite !map_credit_key by reflexivity. rewrite map_app.
  cbn [map Referral.id].
  repeat split; try assumption. apply NoDup_snoc; [assumption|].
  apply lastrowid_fresh.
Qed.

Lemma find_unique {B : Type} (key : User.t -> B) (eqb : B -> B -> bool)
    (l : list User.t) (u : User.t) :
  (forall x y, eqb x y = true <-> x = y) ->
  NoDup (map key l) -> In u l ->
  find (fun v => eqb (key v) (key u)) l = Some u.
Proof.
  intros Heqb. induction l as [|v l IH]; cbn; intros Hnd Hin; [contradiction|].
  inversion Hnd as [|? ? Hv Hnd']; subst.
  destruct Hin as [->|Hin].
  - rewrite (proj2 (Heqb (key u) (key u)) eq_refl). reflexivity.
  - destruct (eqb (key v) (key u)) eqn:E; [|apply IH; assumption].
    apply Heqb in E. exfalso. apply Hv. rewrite E. apply in_map. exact Hin.
Qed.

(** X8.  In every store the bot reaches the [UNIQUE] and [PRIMARY KEY]
    constraints of the schema hold: no two users share a [user_id] or a
    [referral_code], no two rows of a table share an [id]; and so every stored
    user is the row that [get_user] returns for their [user_id] and that
    [get_user_by_referral_code] returns for their [referral_code]. *)
Theorem reachable_keys_ok (db : Database) :
  reachable db ->
  keys_ok db
  /\ rowids_ok db
  /\ (forall u : User.t,
      In u (users db) ->
      get_user db (User.user_id u) = Some u
      /\ get_user_by_referral_code db (User.referral_code u) = Some u).
Proof.
  intros Hr.
  assert (H : keys_ok db /\ rowids_ok db).
  { apply (reachable_preserves (fun d => keys_ok d /\ rowids_ok d));
      [| | | | |exact Hr].
    - intros. eapply keys_rowids_save_user; eassumption.
    - intros db0 db1 db2 u referrer now id rid code H0 _ Hs _ Hsr.
      eapply keys_rowids_save_referral; [|exact Hsr].
      eapply keys_rowids_save_user; eassumption.
    - intros db0 o now db' id [Hk (Hr1 & Hr2 & Hr3 & Hr4)] Hs.
      unfold save_offer in Hs. injection Hs as <- _.
      split; [exact Hk|]. unfold rowids_ok.
      cbn [users offers referrals posts]. rewrite map_app. cbn [map Offer.id].
      repeat split; try assumption. apply NoDup_snoc; [assumption|].
      apply lastrowid_fresh.
    - intros db0 oid ch mid now db' [Hk (Hr1 & Hr2 & Hr3 & Hr4)] Hl.
      unfold log_post in Hl. injection Hl as <-.
      split; [exact Hk|]. unfold rowids_ok.
      cbn [users offers referrals posts]. rewrite map_app. cbn [map Post.id].
      repeat split; try assumption. apply NoDup_snoc; [assumption|].
      apply lastrowid_fresh.
    - split; [split|repeat split]; constructor. }
  destruct H as [Hk Hrow]. split; [exact Hk|]. split; [exact Hrow|].
  intros u Hin. destruct Hk as [Hk1 Hk2]. split.
  - unfold get_user.
    apply (find_unique User.user_id Z.eqb); [apply Z.eqb_eq| |]; assumption.
  - unfold get_user_by_referral_code.
    apply (find_unique User.referral_code String.eqb);
      [apply String.eqb_eq| |]; assumption.
Qed.

(** ** The ledger *)

Section FindKept.

Context {A : Type} (p : A -> bool).

Lemma find_map_kept (f : A -> A) (l : list A) :
  (forall x, p (f x) = p x) -> find p l <> None -> find p (map f l) <> None.
Proof.
  intros Hp H. rewrite find_map_stable by exact Hp.
  destruct (find p l); [discriminate|congruence].
Qed.

Lemma find_snoc_kept (l : list A) (x : A) :
  find p l <> None -> find p (l ++ [x]) <> None.
Proof.
  intros H. rewrite find_snoc. destruct (find p l); [discriminate|congruence].
Qed.

End FindKept.

Lemma touch_keeps_user_id (uid x : Z) (n f : string) (now : datetime)
    (v : User.t) :
  (User.user_id (if (User.user_id v =? uid)%Z then User.touch n f now v
                 else v) =? x)%Z
  = (User.user_id v =? x)%Z.
Proof. destruct (User.user_id v =? uid)%Z; reflexivity. Qed.

Lemma touch_keeps_code (uid : Z) (c n f : string) (now : datetime)
    (v : User.t) :
  String.eqb
    (User.referral_code (if (User.user_id v =? uid)%Z
                         then User.touch n f now v else v)) c
  = String.eqb (User.referral_code v) c.
Proof. destruct (User.user_id v =? uid)%Z; reflexivity. Qed.

Lemma credit_keeps_user_id (code : string) (reward : float) (x : Z)
    (v : User.t) :
  (User.user_id (if String.eqb (User.referral_code v) code
                 then User.credit reward v else v) =? x)%Z
  = (User.user_id v =? x)%Z.
Proof. destruct (String.eqb (User.referral_code v) code); reflexivity. Qed.

Lemma credit_keeps_code (code c : string) (reward : float) (v : User.t) :
  String.eqb
    (User.referral_code (if String.eqb (User.referral_code v) code
                         then User.credit reward v else v)) c
  = String.eqb (User.referral_code v) c.
Proof. destruct (String.eqb (User.referral_code v) code); reflexivity. Qed.

(** A user or a code that is stored stays stored through [save_user] and
    [save_referral]. *)
Lemma save_user_keeps_stored (db db' : Database) (u : User.t) (now : datetime)
    (id : Z) :
  save_user db u now = Ok (db', id) ->
  referrals db' = referrals db
  /\ get_user db' (User.user_id u) <> None
  /\ (forall x : Z, get_user db x <> None -> get_user db' x <> None)
  /\ (forall c : string,
      get_user_by_referral_code db c <> None ->
      get_user_by_referral_code db' c <> None).
Proof.
  intros H. apply save_user_ok_cases in H.
  unfold get_user, get_user_by_referral_code in *.
  destruct H as [[Hu ->]|(Hu & Hc & ->)]; cbn [users referrals with_users];
    (split; [reflexivity|]).
  - split; [|split].
    + apply find_map_kept; [intros v; apply touch_keeps_user_id|exact Hu].
    + intros x. apply find_map_kept. intros v. apply touch_keeps_user_id.
    + intros c. apply find_map_kept. intros v. apply touch_keeps_code.
  - split; [|split].
    + rewrite find_snoc, Hu. cbn [User.user_id]. rewrite Z.eqb_refl.
      discriminate.
    + intros x. apply find_snoc_kept.
    + intros c. apply find_snoc_kept.
Qed.

Lemma save_referral_keeps_stored (db db' : Database) (r : Referral.t)
    (now : datetime) (id : Z) :
  save_referral db r now = Ok (db', id) ->
  (forall x : Z, get_user db x <> None -> get_user db' x <> None)
  /\ (forall c : string,
      get_user_by_referral_code db c <> None ->
      get_user_by_referral_code db' c <> None).
Proof.
  unfold save_referral. intros H. injection H as <- _.
  unfold get_user, get_user_by_referral_code. cbn [users]. split.
  - intros x. apply find_map_kept. intros v. apply credit_keeps_user_id.
  - intros c. apply find_map_kept. intros v. apply credit_keeps_code.
Qed.

Lemma rewards_of_unknown_code (db : Database) (code : string) :
  Forall (fun r => get_user_by_referral_code db (Referral.referrer_code r)
                   <> None) (referrals db) ->
  get_user_by_referral_code db code = None ->
  rewards_of db code = [].
Proof.
  unfold rewards_of. intros Hres Hnone.
  induction Hres as [|r l Hr Hres IH]; cbn; [reflexivity|].
  destruct (String.eqb_spec (Referral.referrer_code r) code) as [E|E];
    [congruence|exact IH].
Qed.

Lemma ledger_save_user (db db' : Database) (u : User.t) (now : datetime)
    (id : Z) :
  ledger_ok db -> save_user db u now = Ok (db', id) -> ledger_ok db'.
Proof.
  intros [Hres Hagg] H.
  destruct (save_user_keeps_stored _ _ _ _ _ H) as (Href & _ & _ & Hcode).
  split.
  - rewrite Href. eapply Forall_impl; [|exact Hres].
    intros r. apply Hcode.
  - apply save_user_ok_cases in H. unfold rewards_of in *.
    destruct H as [[_ ->]|(Hu & Hc & ->)]; cbn [users referrals with_users].
    + apply Forall_map. eapply Forall_impl; [|exact Hagg].
      intros v Hv. destruct (User.user_id v =? User.user_id u)%Z; exact Hv.
    + apply Forall_app. split; [exact Hagg|].
      constructor; [|constructor].
      cbn [User.referral_code User.referral_count User.total_earnings].
      pose proof (rewards_of_unknown_code db _ Hres Hc) as Hnone.
      unfold rewards_of in Hnone. rewrite Hnone. split; reflexivity.
Qed.

Lemma ledger_save_referral (db db' : Database) (r : Referral.t)
    (now : datetime) (id : Z) :
  ledger_ok db ->
  get_user_by_referral_code db (Referral.referrer_code r) <> None ->
  save_referral db r now = Ok (db', id) ->
  ledger_ok db'.
Proof.
  intros [Hres Hagg] Hcode H.
  destruct (save_referral_keeps_stored _ _ _ _ _ H) as [_ Hkept].
  unfold save_referral in H. injection H as <- _.
  unfold ledger_ok, rewards_of in *. cbn [users referrals] in *. split.
  - apply Forall_app. split.
    + eapply Forall_impl; [|exact Hres]. intros r0. apply Hkept.
    + constructor; [|constructor]. cbn [Referral.referrer_code].
      apply Hkept. exact Hcode.
  - apply Forall_map. eapply Forall_impl; [|exact Hagg].
    intros v [Hcount Hsum]. rewrite filter_app, map_app.
    cbn [filter Referral.referrer_code].
    destruct (String.eqb_spec (User.referral_code v)
                (Referral.referrer_code r)) as [E|E].
    + rewrite credit_referral_code. rewrite <- E, String.eqb_refl.
      cbn [map Referral.reward_amount User.credit User.referral_count
           User.total_earnings].
      rewrite length_app, fold_left_app. cbn [List.length fold_left].
      rewrite <- Hsum. split; [lia|reflexivity].
    + destruct (String.eqb_spec (Referral.referrer_code r)
                  (User.referral_code v)) as [E'|_]; [congruence|].
      cbn [map]. rewrite app_nil_r. split; assumption.
Qed.

(** X9.  In every store the bot reaches the aggregates agree with the
    [referrals] table: every referral names the code of a stored user, and
    every user's [referral_count] is the number of referral rows naming
    their code and their [total_earnings] the sum of the rewards of these
    rows, added in the order the rows were saved. *)
Theorem reachable_ledger_ok (db : Database) : reachable db -> ledger_ok db.
Proof.
  intros Hr.
  apply (reachable_preserves ledger_ok); [| | | | |exact Hr].
  - intros. eapply ledger_save_user; eassumption.
  - intros db0 db1 db2 u referrer now id rid code H0 _ Hs Hcode Hsr.
    apply (fun H1 H2 => ledger_save_referral db1 db2 _ now rid H1 H2 Hsr).
    + eapply ledger_save_user; eassumption.
    + cbn [Referral.referrer_code]. rewrite Hcode. discriminate.
  - intros db0 o now db' id H0 Hs.
    unfold save_offer in Hs. injection Hs as <- _. exact H0.
  - intros db0 oid ch mid now db' H0 Hl.
    unfold log_post in Hl. injection Hl as <-. exact H0.
  - split; constructor.
Qed.

(** X10.  In every store the bot reaches every referral row names a stored
    user as the referred one, carries the reward 5.0 and the status
    confirmed, and no user is the referred one of two rows. *)
Theorem reachable_referrals_ok (db : Database) :
  reachable db -> referrals_ok db.
Proof.
  intros Hr.
  apply (reachable_preserves referrals_ok); [| | | | |exact Hr].
  - intros db0 u now db' id [Hrows Hnd] Hs.
    destruct (save_user_keeps_stored _ _ _ _ _ Hs) as (Href & _ & Hkept & _).
    unfold referrals_ok. rewrite Href. split; [|exact Hnd].
    eapply Forall_impl; [|exact Hrows].
    intros r (H1 & H2 & H3). split; [apply Hkept; exact H1|]. split; assumption.
  - intros db0 db1 db2 u referrer now id rid code [Hrows Hnd] Hnew Hs _ Hsr.
    destruct (save_user_keeps_stored _ _ _ _ _ Hs)
      as (Href & Hstored & Hkept & _).
    destruct (save_referral_keeps_stored _ _ _ _ _ Hsr) as [Hkept2 _].
    unfold save_referral in Hsr. injection Hsr as <- _.
    unfold referrals_ok. cbn [referrals]. rewrite Href. split.
    + apply Forall_app. split.
      * eapply Forall_impl; [|exact Hrows].
        intros r (H1 & H2 & H3).
        split; [apply Hkept2, Hkept; exact H1|]. split; assumption.
      * constructor; [|constructor].
        cbn [Referral.referred_user_id Referral.reward_amount
             Referral.status].
        split; [apply Hkept2; exact Hstored|]. split; reflexivity.
    + rewrite map_app. cbn [map Referral.referred_user_id].
      apply NoDup_snoc; [exact Hnd|].
      intros Hin. apply in_map_iff in Hin. destruct Hin as (r & Hr0 & Hin).
      eapply Forall_forall in Hrows; [|exact Hin].
      destruct Hrows as [Hstored0 _]. rewrite Hr0 in Hstored0. congruence.
  - intros db0 o now db' id H0 Hs.
    unfold save_offer in Hs. injection Hs as <- _. exact H0.
  - intros db0 oid ch mid now db' H0 Hl.
    unfold log_post in Hl. injection Hl as <-. exact H0.
  - split; constructor.
Qed.

(** ** [generate_offers] *)

Lemma random_choice_In {A : Type} (r : nat) (seq : list A) (x : A) :
  random_choice r seq = Ok x -> In x seq.
Proof.
  unfold random_choice.
  destruct (nth_error seq (r mod List.length seq)) as [y|] eqn:E;
    [|discriminate].
  intros H. injection H as <-. eapply nth_error_In. exact E.
Qed.

Lemma append_empty_r (s : string) : (s ++ EmptyString)%string = s.
Proof. induction s as [|c s IH]; cbn; [reflexivity|]. rewrite IH. reflexivity. Qed.

Lemma templates_in_range :
  Forall (fun t => In (Template.category t) categories
                   /\ In (Template.platform t) platforms) offer_templates.
Proof.
  unfold offer_templates, categories, platforms.
  repeat (apply Forall_cons; [split|]); try apply Forall_nil;
    cbn [In Template.category Template.platform];
    repeat (first [left; reflexivity|right]).
Qed.

Lemma generate_offer_spec (i : nat) (d : OfferDraw) (now : datetime) :
  exists (o : Offer.t) (t : Template.t),
    generate_offer i d now = Ok o
    /\ In t offer_templates
    /\ Offer.id o = None
    /\ contains (Offer.title o) (Template.title t)
    /\ Offer.description o = Template.description t
    /\ Offer.category o = Template.category t
    /\ Offer.platform o = Template.platform t
    /\ Offer.gravity o <> None
    /\ Offer.affiliate_link o
       = ("https://trendbot.link/" ++ lower (Template.platform t) ++ "/"
          ++ str_of_nat (i + 1) ++ "?ref=trendbot")%string.
Proof.
  unfold generate_offer.
  destruct (random_choice_ok (draw_template d) offer_templates) as [t Ht];
    [discriminate|].
  rewrite Ht. cbn [bind].
  destruct (random_choice_ok (draw_title d)
              [Template.title t;
               (Template.title t ++ " - Limited Time")%string;
               ("🔥 " ++ Template.title t)%string;
               (Template.title t ++ " 2025 Edition")%string])
    as [title Htitle]; [discriminate|].
  rewrite Htitle. cbn [bind]. do 2 eexists. split; [reflexivity|].
  split; [exact (random_choice_In _ _ _ Ht)|].
  cbn [Offer.id Offer.title Offer.description Offer.category Offer.platform
       Offer.gravity Offer.affiliate_link].
  split; [reflexivity|]. split.
  - apply random_choice_In in Htitle.
    destruct Htitle as [<-|[<-|[<-|[<-|[]]]]].
    + exists EmptyString, EmptyString. rewrite append_empty_r. reflexivity.
    + exists EmptyString, " - Limited Time"%string. reflexivity.
    + exists "🔥 "%string, EmptyString. rewrite append_empty_r. reflexivity.
    + exists EmptyString, " 2025 Edition"%string. reflexivity.
  - repeat split. discriminate.
Qed.

Lemma generate_loop_spec (n : nat) (draws : nat -> OfferDraw) (now : datetime)
    (i : nat) :
  exists offers : list Offer.t,
    generate_loop n i draws now = Ok offers
    /\ List.length offers = n
    /\ forall (k : nat) (o : Offer.t),
         nth_error offers k = Some o ->
         generate_offer (i + k) (draws (i + k)%nat) now = Ok o.
Proof.
  revert i. induction n as [|n IH]; intros i; cbn [generate_loop].
  - exists []. split; [reflexivity|]. split; [reflexivity|].
    intros [|k] o H; discriminate H.
  - destruct (generate_offer_spec i (draws i) now) as (o & t & Ho & _).
    destruct (IH (S i)) as (rest & Hrest & Hlen & Hnth).
    rewrite Ho, Hrest. cbn [bind]. exists (o :: rest).
    split; [reflexivity|]. split; [cbn; lia|].
    intros [|k] o' H; cbn [nth_error] in H.
    + injection H as <-. rewrite Nat.add_0_r. exact Ho.
    + replace (i + S k)%nat with (S i + k)%nat by lia. apply Hnth. exact H.
Qed.

(** X11.  [generate_offers] raises nothing and returns [count] offers (none
    for a negative [count]).  The offer of round [i] has no id yet, a gravity,
    the description, category and platform of one of the twelve templates,
    a title in which that template's title occurs, and the link numbered
    [i + 1] under the platform's name in lower case; its category is one of
    [self.categories] and its platform one of [self.platforms]. *)
Theorem generate_offers_spec (count : Z) (draws : nat -> OfferDraw)
    (now : datetime) :
  exists offers : list Offer.t,
    generate_offers count draws now = Ok offers
    /\ List.length offers = Z.to_nat count
    /\ forall (i : nat) (o : Offer.t),
         nth_error offers i = Some o ->
         exists t : Template.t,
           In t offer_templates
           /\ Offer.id o = None
           /\ Offer.gravity o <> None
           /\ contains (Offer.title o) (Template.title t)
           /\ Offer.description o = Template.description t
           /\ Offer.category o = Template.category t
           /\ Offer.platform o = Template.platform t
           /\ In (Offer.category o) categories
           /\ In (Offer.platform o) platforms
           /\ Offer.affiliate_link o
              = ("https://trendbot.link/" ++ lower (Offer.platform o) ++ "/"
                 ++ str_of_nat (i + 1) ++ "?ref=trendbot")%string.
Proof.
  unfold generate_offers.
  destruct (generate_loop_spec (Z.to_nat count) draws now 0)
    as (offers & Hgen & Hlen & Hnth).
  exists offers. split; [exact Hgen|]. split; [exact Hlen|].
  intros i o Hi. specialize (Hnth i o Hi). cbn [Nat.add] in Hnth.
  destruct (generate_offer_spec i (draws i) now)
    as (o' & t & Ho & Hin & Hid & Htitle & Hdesc & Hcat & Hplat & Hgrav & Hlink).
  rewrite Ho in Hnth. injection Hnth as <-.
  pose proof templates_in_range as Hrange.
  eapply Forall_forall in Hrange; [|exact Hin]. destruct Hrange as [Hc Hp].
  exists t. rewrite Hcat, Hplat. repeat split; assumption.
Qed.

(** ** [post_to_channel] and [start_bot] *)

Lemma generate_post_returns (format_2f format_0f : float -> string)
    (str_title : string -> string) (offer : Offer.t) (d : Draws) :
  exists post : string,
    generate_post format_2f format_0f str_title offer d = Ok post.
Proof.
  destruct (random_choice_ok (draw_emoji d)
              (dict_get emojis (Offer.category offer) ["🔥"%string])
              (category_emojis_nonempty _)) as [emoji He].
  destruct (random_choice_ok (draw_hook d) hooks) as [hook Hh];
    [discriminate|].
  destruct (random_choice_ok (draw_cta d) ctas) as [cta Hc]; [discriminate|].
  destruct (random_choice_ok (draw_urgency d) urgency_phrases) as [urg Hu];
    [discriminate|].
  unfold generate_post. rewrite He, Hh, Hc, Hu. cbn [bind].
  eexists. reflexivity.
Qed.

Lemma generate_offers_unsaved (count : Z) (draws : nat -> OfferDraw)
    (now : datetime) :
  exists offers : list Offer.t,
    generate_offers count draws now = Ok offers
    /\ List.length offers = Z.to_nat count
    /\ Forall (fun o => Offer.id o = None) offers.
Proof.
  unfold generate_offers.
  destruct (generate_loop_spec (Z.to_nat count) draws now 0)
    as (offers & Hgen & Hlen & Hnth).
  exists offers. split; [exact Hgen|]. split; [exact Hlen|].
  apply Forall_forall. intros o Hin.
  apply In_nth_error in Hin. destruct Hin as [k Hk].
  specialize (Hnth k o Hk).
  destruct (generate_offer_spec (0 + k) (draws (0 + k)%nat) now)
    as (o' & t & Ho & _ & Hid & _).
  rewrite Ho in Hnth. injection Hnth as <-. exact Hid.
Qed.

Lemma save_offers_spec (new_offers : list Offer.t) (db : Database)
    (stats : Stats) (now : datetime) :
  exists rows : list Offer.t,
    save_offers db stats new_offers now
    = (mkDatabase (offers db ++ rows) (users db) (referrals db) (posts db),
       mkStats (posts_sent stats)
         (offers_generated stats + Z.of_nat (List.length new_offers))
         (bot_started stats),
       None)
    /\ map Offer.title rows = map Offer.title new_offers
    /\ Forall (fun row => Offer.id row <> None) rows.
Proof.
  revert db stats. induction new_offers as [|o l IH]; intros db stats.
  - exists []. cbn [save_offers List.length map]. rewrite app_nil_r, Z.add_0_r.
    destruct db, stats. repeat split. constructor.
  - cbn [save_offers]. unfold save_offer.
    match goal with
    | |- context [save_offers ?d ?s l now] =>
        destruct (IH d s) as (rows & Hsave & Htitles & Hids); rewrite Hsave
    end.
    cbn [offers users referrals posts posts_sent offers_generated bot_started].
    eexists (_ :: rows). rewrite <- app_assoc. cbn [app].
    replace (offers_generated stats + Z.of_nat (List.length (o :: l)))
      with (offers_generated stats + 1 + Z.of_nat (List.length l))
      by (cbn [List.length]; lia).
    split; [reflexivity|].
    cbn [map Offer.title]. rewrite Htitles.
    split; [reflexivity|]. constructor; [discriminate|exact Hids].
Qed.

Lemma get_offers_all_empty (db : Database) (limit : Z) :
  offers db = [] -> get_offers db limit None = [].
Proof.
  intros H. unfold get_offers. cbn [opt_truthy]. rewrite H. cbn.
  unfold sql_limit. destruct (limit <? 0)%Z; [reflexivity|].
  apply firstn_nil.
Qed.

Lemma get_offers_all_nonempty (db : Database) (limit : Z) :
  0 < limit -> offers db <> [] -> get_offers db limit None <> [].
Proof.
  intros Hlimit H. unfold get_offers. cbn [opt_truthy].
  apply sql_limit_nonempty; [exact Hlimit|].
  intros E. apply H.
  pose proof (order_desc_perm Offer.created_at (offers db)) as Hp.
  rewrite E in Hp. apply Permutation_nil in Hp. exact Hp.
Qed.

Lemma get_offers_all_In (db : Database) (limit : Z) (o : Offer.t) :
  In o (get_offers db limit None) -> In o (offers db).
Proof.
  unfold get_offers. cbn [opt_truthy]. intros H. apply sql_limit_In in H.
  apply (Permutation_in _ (order_desc_perm _ _)) in H. exact H.
Qed.

(** X12.  With offers in the catalog and a message that is sent,
    [post_to_channel] picks one of the ten newest stored offers.  When its
    commission is not NULL, the catalog, the users and the referrals stay as
    they are and one post is logged, with the message id and the channel,
    whose [offer_id] is the id of that offer; [posts_sent] grows by one.
    When its commission is NULL, rendering raises inside the [try]: nothing
    is logged and the counters are as they were. *)
Theorem post_to_channel_logs_stored_offer (db : Database) (stats : Stats)
    (channel : string) (gen : nat -> OfferDraw) (pick : nat) (d : Draws)
    (format_2f format_0f : float -> string) (str_title : string -> string)
    (message_id : Z) (now : datetime) :
  offers db <> [] ->
  exists o : Offer.t,
    In o (offers db)
    /\ random_choice pick (get_offers db 10 None) = Ok o
    /\ post_to_channel db stats channel gen pick d format_2f format_0f
         str_title (Some message_id) now
       = if is_null (Offer.commission o) then (db, stats)
         else
           (mkDatabase (offers db) (users db) (referrals db)
              (posts db ++
               [Post.mk (Some (lastrowid (map Post.id (posts db))))
                  (Offer.id o) now channel message_id]),
            mkStats (posts_sent stats + 1) (offers_generated stats)
              (bot_started stats)).
Proof.
  intros Hcat. unfold post_to_channel.
  pose proof (get_offers_all_nonempty db 10 ltac:(lia) Hcat) as Hne.
  pose proof (get_offers_all_In db 10) as Hin.
  destruct (get_offers db 10 None) as [|o1 l]; [congruence|].
  cbv beta iota zeta.
  destruct (random_choice_ok pick (o1 :: l)) as [offer Hpick]; [discriminate|].
  rewrite Hpick. exists offer.
  split; [apply Hin; eapply random_choice_In; exact Hpick|].
  split; [reflexivity|].
  unfold generate_post_stored.
  destruct (is_null (Offer.commission offer)); [reflexivity|].
  destruct (generate_post_returns format_2f format_0f str_title
              (Offer.set_gravity (bind_real (Offer.gravity offer)) offer) d)
    as [post Hpost].
  rewrite Hpost. unfold log_post. reflexivity.
Qed.

Lemma post_to_channel_logs_stored_offer_witness :
  post_to_channel db_catalog stats_0 "@trend" gen_0 7 draws_0 fixed_2f
    fixed_0f title_id (Some 42) 300
  = (mkDatabase [offer_zero] [] [] [Post.mk (Some 1) (Some 1) 300 "@trend" 42],
     mkStats 1 0 50).
Proof.
  destruct (post_to_channel_logs_stored_offer db_catalog stats_0 "@trend"
              gen_0 7 draws_0 fixed_2f fixed_0f title_id 42 300)
    as (o & Hin & _ & Hpost); [discriminate|].
  destruct Hin as [<-|[]]. exact Hpost.
Defined.

(** A NaN commission is stored as it is bound, as NULL, and the offer read
    back cannot be rendered: the post is neither sent nor logged. *)
Example post_to_channel_null_commission :
  save_offer init_database offer_nan 100 = Ok (db_null_commission, 1)
  /\ post_to_channel db_null_commission stats_0 "@trend" gen_0 7 draws_0
       fixed_2f fixed_0f title_id (Some 42) 300
     = (db_null_commission, stats_0).
Proof. split; reflexivity. Qed.

(** X13.  With an empty catalog and a message that is sent,
    [post_to_channel] stores twenty generated offers, each under an id, and
    logs one post whose [offer_id] is NULL: the offer it publishes is taken
    from the objects it generated, which were never given their ids. *)
Theorem post_to_channel_empty_catalog (db : Database) (stats : Stats)
    (channel : string) (gen : nat -> OfferDraw) (pick : nat) (d : Draws)
    (format_2f format_0f : float -> string) (str_title : string -> string)
    (message_id : Z) (now : datetime) :
  offers db = [] ->
  exists rows : list Offer.t,
    post_to_channel db stats channel gen pick d format_2f format_0f
      str_title (Some message_id) now
    = (mkDatabase rows (users db) (referrals db)
         (posts db ++
          [Post.mk (Some (lastrowid (map Post.id (posts db)))) None now
             channel message_id]),
       mkStats (posts_sent stats + 1) (offers_generated stats + 20)
         (bot_started stats))
    /\ List.length rows = 20%nat
    /\ Forall (fun row => Offer.id row <> None) rows.
Proof.
  intros Hcat. unfold post_to_channel.
  rewrite (get_offers_all_empty db 10 Hcat).
  destruct (generate_offers_unsaved 20 gen now) as (new & Hgen & Hlen & Hids).
  rewrite Hgen.
  destruct (save_offers_spec new db stats now) as (rows & Hsave & Ht & Hrows).
  rewrite Hsave, Hcat, Hlen. cbn [app].
  assert (Hten : firstn 10 new <> []).
  { destruct new as [|o1 new]; [discriminate Hlen|]. discriminate. }
  destruct (random_choice_ok pick (firstn 10 new) Hten) as [offer Hpick].
  rewrite Hpick.
  destruct (generate_post_returns format_2f format_0f str_title offer d)
    as [post Hpost].
  rewrite Hpost. unfold log_post.
  cbn [offers users referrals posts posts_sent offers_generated bot_started].
  assert (Hid : Offer.id offer = None).
  { apply random_choice_In in Hpick.
    assert (Hin : In offer new).
    { rewrite <- (firstn_skipn 10 new). apply in_or_app. left. exact Hpick. }
    eapply Forall_forall in Hids; [exact Hids|exact Hin]. }
  rewrite Hid. exists rows. split; [reflexivity|]. split; [|exact Hrows].
  rewrite <- (length_map Offer.title), Ht, length_map. exact Hlen.
Qed.

Lemma post_to_channel_empty_catalog_witness :
  offers init_database = []
  /\ exists rows : list Offer.t,
       post_to_channel init_database stats_0 "@trend" gen_0 7 draws_0
         fixed_2f fixed_0f title_id (Some 42) 300
       = (mkDatabase rows [] [] [Post.mk (Some 1) None 300 "@trend" 42],
          mkStats 1 20 50)
       /\ List.length rows = 20%nat
       /\ Forall (fun row => Offer.id row <> None) rows.
Proof.
  split; [reflexivity|].
  apply (post_to_channel_empty_catalog init_database stats_0 "@trend" gen_0 7
           draws_0 fixed_2f fixed_0f title_id 42 300).
  reflexivity.
Defined.

(** X14.  When the message cannot be sent, [post_to_channel] raises nothing,
    logs no post and leaves [posts_sent], the users and the referrals as they
    are; the twenty offers generated for an empty catalog stay stored and
    counted. *)
Theorem post_to_channel_send_fails (db : Database) (stats : Stats)
    (channel : string) (gen : nat -> OfferDraw) (pick : nat) (d : Draws)
    (format_2f format_0f : float -> string) (str_title : string -> string)
    (now : datetime) :
  exists rows : list Offer.t,
    post_to_channel db stats channel gen pick d format_2f format_0f
      str_title None now
    = (mkDatabase (offers db ++ rows) (users db) (referrals db) (posts db),
       mkStats (posts_sent stats)
         (offers_generated stats + Z.of_nat (List.length rows))
         (bot_started stats))
    /\ List.length rows = match offers db with [] => 20%nat | _ => 0%nat end.
Proof.
  unfold post_to_channel.
  destruct (offers db) as [|o0 l0] eqn:Hcat.
  - rewrite (get_offers_all_empty db 10 Hcat).
    destruct (generate_offers_unsaved 20 gen now) as (new & Hgen & Hlen & _).
    rewrite Hgen.
    destruct (save_offers_spec new db stats now) as (rows & Hsave & Ht & _).
    rewrite Hsave, Hcat. cbn [app].
    assert (Hrows : List.length rows = 20%nat).
    { rewrite <- (length_map Offer.title), Ht, length_map. exact Hlen. }
    exists rows. rewrite Hrows, Hlen. split; [|reflexivity].
    destruct (random_choice pick (firstn 10 new)) as [offer|]; [|reflexivity].
    destruct (generate_post format_2f format_0f str_title offer d);
      reflexivity.
  - assert (Hne : get_offers db 10 None <> []).
    { apply get_offers_all_nonempty; [lia|]. rewrite Hcat. discriminate. }
    exists []. rewrite app_nil_r, Z.add_0_r. split; [|reflexivity].
    assert (Hsame : (db, stats)
                    = (mkDatabase (o0 :: l0) (users db) (referrals db)
                         (posts db),
                       mkStats (posts_sent stats) (offers_generated stats)
                         (bot_started stats))).
    { rewrite <- Hcat. destruct db, stats. reflexivity. }
    rewrite <- Hsame.
    destruct (get_offers db 10 None) as [|o1 l]; [congruence|].
    cbv beta iota zeta.
    destruct (random_choice pick (o1 :: l)) as [offer|]; [|reflexivity].
    destruct (generate_post_stored format_2f format_0f str_title offer d)
      as [[post|]|]; reflexivity.
Qed.

(** X15.  With both environment variables set [start_bot] leaves a catalog
    that is not empty: a catalog with offers is left as it is, an empty one
    is filled with thirty generated offers, counted in [offers_generated];
    users, referrals and posts are not touched.  With a variable missing or
    empty it returns before it reads the store. *)
Theorem start_bot_fills_catalog (db : Database) (stats : Stats)
    (bot_token channel_id : option string) (gen : nat -> OfferDraw)
    (now : datetime) :
  (opt_truthy bot_token = true ->
   opt_truthy channel_id = true ->
   exists rows : list Offer.t,
     start_bot db stats bot_token channel_id gen now
     = Ok (Some (mkDatabase (offers db ++ rows) (users db) (referrals db)
                   (posts db),
                 mkStats (posts_sent stats)
                   (offers_generated stats + Z.of_nat (List.length rows))
                   (bot_started stats)))
     /\ offers db ++ rows <> []
     /\ List.length rows
        = match offers db with [] => 30%nat | _ => 0%nat end)
  /\ (opt_truthy bot_token = false \/ opt_truthy channel_id = false ->
      start_bot db stats bot_token channel_id gen now = Ok None).
Proof.
  unfold start_bot. split.
  - intros -> ->. cbn [negb].
    destruct (offers db) as [|o0 l0] eqn:Hcat.
    + rewrite (get_offers_all_empty db 1 Hcat).
      destruct (generate_offers_unsaved 30 gen now) as (new & Hgen & Hlen & _).
      rewrite Hgen. cbn [bind].
      destruct (save_offers_spec new db stats now) as (rows & Hsave & Ht & _).
      rewrite Hsave, Hcat. cbn [app].
      assert (Hrows : List.length rows = 30%nat).
      { rewrite <- (length_map Offer.title), Ht, length_map. exact Hlen. }
      exists rows. rewrite Hrows, Hlen. split; [reflexivity|].
      split; [|reflexivity]. destruct rows; [discriminate Hrows|discriminate].
    + assert (Hne : get_offers db 1 None <> []).
      { apply get_offers_all_nonempty; [lia|]. rewrite Hcat. discriminate. }
      exists []. rewrite app_nil_r, Z.add_0_r.
      destruct (get_offers db 1 None) as [|o1 l]; [congruence|].
      split; [|split; [discriminate|reflexivity]].
      rewrite <- Hcat. destruct db, stats. reflexivity.
  - intros [->| ->]; [reflexivity|].
    destruct (negb (opt_truthy bot_token)); reflexivity.
Qed.

Lemma start_bot_fills_catalog_witness :
  (exists rows : list Offer.t,
     start_bot init_database stats_0 (Some "123:abc"%string)
       (Some "@trend"%string) gen_0 60
     = Ok (Some (mkDatabase rows [] [] [], mkStats 0 30 50))
     /\ rows <> []
     /\ List.length rows = 30%nat)
  /\ start_bot init_database stats_0 None (Some "@trend"%string) gen_0 60
     = Ok None.
Proof.
  destruct (start_bot_fills_catalog init_database stats_0
              (Some "123:abc"%string) (Some "@trend"%string) gen_0 60)
    as [H _].
  destruct (start_bot_fills_catalog init_database stats_0 None
              (Some "@trend"%string) gen_0 60) as [_ H0].
  split; [|apply H0; left; reflexivity].
  destruct (H eq_refl eq_refl) as (rows & H1 & H2 & H3).
  exists rows. cbn [offers init_database app List.length] in *.
  rewrite H3 in H1. split; [exact H1|]. split; assumption.
Defined.

(** ** [referral_command] *)

Lemma save_user_raises_cause (db : Database) (u : User.t) (now : datetime)
    (e : exn) :
  save_user db u now = Raise e ->
  e = IntegrityError "UNIQUE constraint failed: users.referral_code".
Proof.
  unfold save_user.
  destruct (find _ (users db)); [discriminate|].
  destruct (existsb _ (users db)); [|discriminate].
  intros H. injection H as <-. reflexivity.
Qed.

Lemma referral_message_cases (u : User.t) (l : list Referral.t) :
  referral_message u l
  = if is_null (User.total_earnings u)
       || existsb (fun r => is_null (Referral.reward_amount r)) (firstn 5 l)
    then inl TypeError
    else inr (mkDashboard u (firstn 5 l)).
Proof.
  unfold referral_message.
  destruct (is_null (User.total_earnings u)); reflexivity.
Qed.

Lemma referral_command_stored (db : Database) (user : TgUser.t)
    (token : string) (now : datetime) (u : User.t) :
  get_user db (TgUser.id user) = Some u ->
  referral_command db user token now
  = (db, referral_message u (get_referrals db (User.referral_code u))).
Proof. intros He. unfold referral_command. rewrite He. reflexivity. Qed.

Lemma referral_command_new (db : Database) (user : TgUser.t)
    (token : string) (now : datetime) :
  get_user db (TgUser.id user) = None ->
  get_user_by_referral_code db ("LUX" ++ upper token)%string = None ->
  let row :=
    User.mk (Some (lastrowid (map User.id (users db)))) (TgUser.id user)
      (or_empty (TgUser.username user)) (or_empty (TgUser.first_name user))
      ("LUX" ++ upper token)%string None 0 0%float now now in
  let db1 := with_users db (users db ++ [row]) in
  get_user db1 (TgUser.id user) = Some row
  /\ referral_command db user token now
     = (db1, referral_message row (get_referrals db1 (User.referral_code row))).
Proof.
  intros He Hdraw row db1.
  assert (Hrow : get_user db1 (TgUser.id user) = Some row).
  { unfold get_user, db1 in *. cbn [users with_users].
    rewrite find_snoc, He. subst row. cbn [User.user_id].
    rewrite Z.eqb_refl. reflexivity. }
  split; [exact Hrow|].
  unfold referral_command. rewrite He.
  rewrite save_user_insert by assumption.
  cbn [new_User User.user_id User.username User.first_name
       User.referral_code User.referred_by].
  fold row. fold db1. rewrite Hrow. reflexivity.
Qed.

(** X16.  [/referral] gets or creates: for a stored user the store is not
    written at all, for a new user whose drawn code is free one row without a
    referrer is appended, and no referral is created either way.  The handler
    then shows the stored row with the five newest of its referrals, or
    raises [TypeError] when the earnings of the row or the reward of one of
    these referrals is NULL; every later [/referral] of the user answers the
    same and writes nothing.  A new user whose drawn code is taken gets the
    [IntegrityError] of [save_user], the store being as it was. *)
Theorem referral_command_get_or_create (db : Database) (user : TgUser.t)
    (token : string) (now : datetime) :
  (get_user db (TgUser.id user) <> None
   \/ get_user_by_referral_code db ("LUX" ++ upper token)%string = None ->
   exists (db1 : Database) (u : User.t),
     referral_command db user token now
     = (db1,
        if is_null (User.total_earnings u)
           || existsb (fun r => is_null (Referral.reward_amount r))
                (firstn 5 (get_referrals db1 (User.referral_code u)))
        then inl TypeError
        else inr (mkDashboard u
                    (firstn 5 (get_referrals db1 (User.referral_code u)))))
     /\ get_user db1 (TgUser.id user) = Some u
     /\ offers db1 = offers db
     /\ referrals db1 = referrals db
     /\ posts db1 = posts db
     /\ (get_user db (TgUser.id user) <> None -> db1 = db)
     /\ (get_user db (TgUser.id user) = None ->
         users db1 = users db ++ [u]
         /\ u = User.mk (Some (lastrowid (map User.id (users db))))
                  (TgUser.id user) (or_empty (TgUser.username user))
                  (or_empty (TgUser.first_name user))
                  ("LUX" ++ upper token)%string None 0 0%float now now)
     /\ (forall (token' : string) (now' : datetime),
         referral_command db1 user token' now'
         = referral_command db user token now))
  /\ (get_user db (TgUser.id user) = None ->
      get_user_by_referral_code db ("LUX" ++ upper token)%string <> None ->
      referral_command db user token now
      = (db, inl (Storage (IntegrityError
                             "UNIQUE constraint failed: users.referral_code")))).
Proof.
  split.
  - intros Hdraw.
    destruct (get_user db (TgUser.id user)) as [e|] eqn:He.
    + exists db, e.
      rewrite (referral_command_stored db user token now e He).
      split; [rewrite referral_message_cases; reflexivity|].
      repeat split; try congruence.
      intros token' now'. apply referral_command_stored. exact He.
    + destruct Hdraw as [Hdraw|Hdraw]; [congruence|].
      destruct (referral_command_new db user token now He Hdraw)
        as [Hrow Hrun].
      rewrite Hrun. do 2 eexists.
      split; [rewrite referral_message_cases; reflexivity|].
      split; [exact Hrow|].
      cbn [offers users referrals posts with_users].
      repeat split; try congruence.
      intros token' now'. apply referral_command_stored. exact Hrow.
  - intros He Htaken. unfold referral_command. rewrite He.
    destruct (save_user db _ now) as [[db1 id]|e] eqn:Hs.
    + apply save_user_ok_cases in Hs.
      cbn [new_User User.user_id User.referral_code] in Hs.
      destruct Hs as [[Hs _]|(_ & Hs & _)]; congruence.
    + apply save_user_raises_cause in Hs. rewrite Hs. reflexivity.
Qed.

Lemma referral_command_get_or_create_witness :
  get_user db_alice 2 = None
  /\ get_user_by_referral_code db_alice ("LUX" ++ upper "9f3e77a0")%string
     = None
  /\ exists (db1 : Database) (d1 : Dashboard),
       referral_command db_alice tg_bob "9f3e77a0" 200 = (db1, inr d1)
       /\ users db1
          = [alice;
             User.mk (Some 2) 2 "bob" "Bob" "LUX9F3E77A0" None 0 0%float
               200 200]
       /\ referrals db1 = []
       /\ recent_referrals d1 = []
       /\ referral_command db1 tg_bob "0badcafe" 300 = (db1, inr d1).
Proof.
  split; [reflexivity|]. split; [reflexivity|].
  destruct (referral_command_get_or_create db_alice tg_bob "9f3e77a0"%string
              200) as [H _].
  destruct (H (or_intror eq_refl))
    as (db1 & u & H1 & _ & _ & H4 & _ & _ & H7 & H8).
  destruct (H7 eq_refl) as [Husers Hu].
  exists db1, (mkDashboard u []).
  assert (Hrun : referral_command db_alice tg_bob "9f3e77a0" 200
                 = (db1, inr (mkDashboard u []))).
  { rewrite H1. unfold get_referrals. rewrite H4, Hu. reflexivity. }
  split; [exact Hrun|]. split; [rewrite Husers, Hu; reflexivity|].
  split; [exact H4|]. split; [reflexivity|].
  rewrite H8. exact Hrun.
Defined.

(** A referral saved with a NaN reward leaves NULL in the earnings of the
    referrer, whose dashboard can then not be formatted. *)
Example referral_command_null_earnings :
  save_referral db_alice referral_nan 200 = Ok (db_null_reward, 1)
  /\ referral_command db_null_reward tg_alice "0badcafe" 300
     = (db_null_reward, inl TypeError).
Proof. split; reflexivity. Qed.

(** ** [stats_command] *)

Lemma dict_get_incr (d : list (string * Z)) (k k' : string) :
  dict_get (dict_incr d k) k' 0
  = dict_get d k' 0 + (if String.eqb k k' then 1 else 0).
Proof.
  induction d as [|[k0 v] d IH]; cbn [dict_incr dict_get].
  - destruct (String.eqb k k'); lia.
  - destruct (String.eqb_spec k0 k) as [->|Hk]; cbn [dict_get].
    + destruct (String.eqb k k'); lia.
    + destruct (String.eqb_spec k0 k') as [->|Hk']; [|exact IH].
      destruct (String.eqb_spec k k'); [congruence|lia].
Qed.

Lemma dict_incr_keys (d : list (string * Z)) (k k' : string) :
  In k' (map fst (dict_incr d k)) <-> k' = k \/ In k' (map fst d).
Proof.
  induction d as [|[k0 v] d IH]; cbn [dict_incr map fst In].
  - intuition congruence.
  - destruct (String.eqb_spec k0 k) as [->|Hk]; cbn [map fst In].
    + intuition congruence.
    + rewrite IH. intuition congruence.
Qed.

Lemma dict_incr_NoDup (d : list (string * Z)) (k : string) :
  NoDup (map fst d) -> NoDup (map fst (dict_incr d k)).
Proof.
  induction d as [|[k0 v] d IH]; cbn [dict_incr map fst]; intros Hnd.
  - constructor; [intros []|constructor].
  - inversion Hnd as [|? ? Hk0 Hnd']; subst.
    destruct (String.eqb_spec k0 k) as [->|Hk]; cbn [map fst].
    + constructor; assumption.
    + constructor; [|apply IH; exact Hnd'].
      rewrite dict_incr_keys. intros [E|E]; [congruence|contradiction].
Qed.

Lemma tally_from (keys : list string) (d : list (string * Z)) :
  NoDup (map fst d) ->
  NoDup (map fst (fold_left dict_incr keys d))
  /\ forall k : string,
       dict_get (fold_left dict_incr keys d) k 0
       = dict_get d k 0 + Z.of_nat (count_occ string_dec keys k).
Proof.
  revert d. induction keys as [|x keys IH]; intros d Hnd; cbn [fold_left].
  - split; [exact Hnd|]. intros k. cbn. lia.
  - destruct (IH (dict_incr d x) (dict_incr_NoDup d x Hnd)) as [Hnd' Hget].
    split; [exact Hnd'|]. intros k. rewrite Hget, dict_get_incr.
    cbn [count_occ].
    destruct (string_dec x k) as [->|Hx].
    + rewrite String.eqb_refl. lia.
    + destruct (String.eqb_spec x k); [congruence|lia].
Qed.

Lemma dict_get_In (d : list (string * Z)) (k : string) (v : Z) :
  NoDup (map fst d) -> In (k, v) d -> dict_get d k 0 = v.
Proof.
  induction d as [|[k0 v0] d IH]; cbn [map fst In dict_get]; intros Hnd Hin;
    [contradiction|].
  inversion Hnd as [|? ? Hk0 Hnd']; subst.
  destruct Hin as [E|Hin].
  - injection E as -> ->. rewrite String.eqb_refl. reflexivity.
  - destruct (String.eqb_spec k0 k) as [->|_]; [|apply IH; assumption].
    exfalso. apply Hk0. apply (in_map fst) in Hin. exact Hin.
Qed.

Lemma fold_best (d : list (string * Z)) (kv : string * Z) :
  let best :=
    fold_left (fun best kv' => if (snd best <? snd kv')%Z then kv' else best)
      d kv in
  In best (kv :: d) /\ Forall (fun kv' => snd kv' <= snd best) (kv :: d).
Proof.
  revert kv. induction d as [|x d IH]; intros kv; cbn [fold_left].
  - split; [left; reflexivity|]. constructor; [lia|constructor].
  - destruct (Z.ltb_spec (snd kv) (snd x)) as [Hlt|Hge].
    + destruct (IH x) as [Hin Hall]. split; [right; exact Hin|].
      inversion Hall as [|? ? Hx Hd]; subst.
      constructor; [lia|]. constructor; assumption.
    + destruct (IH kv) as [Hin Hall]. split.
      * destruct Hin as [<-|Hin]; [left; reflexivity|right; right; exact Hin].
      * inversion Hall as [|? ? Hkv Hd]; subst.
        constructor; [exact Hkv|]. constructor; [lia|exact Hd].
Qed.

Lemma tally_spec (keys : list string) :
  keys <> [] ->
  exists top : string,
    dict_max (tally keys) = Some top
    /\ NoDup (map fst (tally keys))
    /\ (forall k : string,
        dict_get (tally keys) k 0 = Z.of_nat (count_occ string_dec keys k))
    /\ (forall (k : string) (v : Z),
        In (k, v) (tally keys) -> v <= dict_get (tally keys) top 0).
Proof.
  intros Hne. unfold tally.
  destruct (tally_from keys [] (NoDup_nil _)) as [Hnd Hget].
  cbn [dict_get] in Hget.
  destruct (fold_left dict_incr keys []) as [|kv d] eqn:Ht.
  - exfalso. destruct keys as [|x keys]; [congruence|].
    specialize (Hget x). cbn [dict_get count_occ] in Hget.
    destruct (string_dec x x); [lia|congruence].
  - cbn [dict_max]. eexists. split; [reflexivity|].
    split; [exact Hnd|]. split; [intros k; rewrite Hget; lia|].
    destruct (fold_best d kv) as [Hin Hall]. intros k v Hkv.
    match goal with
    | |- _ <= dict_get _ (fst ?b) 0 =>
        rewrite (dict_get_In (kv :: d) (fst b) (snd b) Hnd)
          by (destruct b; exact Hin)
    end.
    eapply Forall_forall in Hall; [|exact Hkv]. exact Hall.
Qed.

(** X17.  [stats_command] answers that there are no statistics exactly when
    the catalog is empty, raises [TypeError] exactly when one of the offers
    it reads has a NULL commission, and never meets the [ValueError] of
    [max].  Otherwise each breakdown has one entry for a platform (a
    category) and the entry counts the offers of that platform among the
    offers read, and the top platform (category) has a count that no entry
    exceeds. *)
Theorem stats_command_breakdown (db : Database) :
  (offers db = [] <-> stats_command db = inr None)
  /\ (offers db <> [] ->
      ((exists o : Offer.t,
          In o (get_offers db 1000 None)
          /\ is_null (Offer.commission o) = true)
       <-> stats_command db = inl TypeError)
      /\ (Forall (fun o => is_null (Offer.commission o) = false)
            (get_offers db 1000 None) ->
          exists b : Breakdown,
            stats_command db = inr (Some b)
            /\ total_offers b = List.length (get_offers db 1000 None)
            /\ NoDup (map fst (by_platform b))
            /\ NoDup (map fst (by_category b))
            /\ (forall p : string,
                dict_get (by_platform b) p 0
                = Z.of_nat (count_occ string_dec
                              (map Offer.platform (get_offers db 1000 None))
                              p))
            /\ (forall c : string,
                dict_get (by_category b) c 0
                = Z.of_nat (count_occ string_dec
                              (map Offer.category (get_offers db 1000 None))
                              c))
            /\ (forall (p : string) (v : Z),
                In (p, v) (by_platform b) ->
                v <= dict_get (by_platform b) (top_platform b) 0)
            /\ (forall (c : string) (v : Z),
                In (c, v) (by_category b) ->
                v <= dict_get (by_category b) (top_category b) 0))).
Proof.
  assert (Hrun : forall (o : Offer.t) (l : list Offer.t),
             get_offers db 1000 None = o :: l ->
             exists p c : string,
               dict_max (tally (map Offer.platform (o :: l))) = Some p
               /\ dict_max (tally (map Offer.category (o :: l))) = Some c
               /\ stats_command db
                  = if existsb (fun o => is_null (Offer.commission o)) (o :: l)
                    then inl TypeError
                    else inr (Some (mkBreakdown (List.length (o :: l))
                                      (tally (map Offer.platform (o :: l)))
                                      (tally (map Offer.category (o :: l)))
                                      p c))).
  { intros o l Hread.
    destruct (tally_spec (map Offer.platform (o :: l)))
      as (p & Hp & _); [discriminate|].
    destruct (tally_spec (map Offer.category (o :: l)))
      as (c & Hc & _); [discriminate|].
    exists p, c. split; [exact Hp|]. split; [exact Hc|].
    unfold stats_command. rewrite Hread, Hp, Hc. reflexivity. }
  split.
  - split.
    + intros Hcat. unfold stats_command.
      rewrite (get_offers_all_empty db 1000 Hcat). reflexivity.
    + intros Hnone. destruct (offers db) as [|o0 l0] eqn:Hcat; [reflexivity|].
      exfalso.
      assert (Hne : get_offers db 1000 None <> []).
      { apply get_offers_all_nonempty; [lia|]. rewrite Hcat. discriminate. }
      destruct (get_offers db 1000 None) as [|o l] eqn:Hread; [congruence|].
      destruct (Hrun o l eq_refl) as (p & c & _ & _ & Hs).
      rewrite Hs in Hnone. destruct (existsb _ (o :: l)); discriminate Hnone.
  - intros Hcat.
    pose proof (get_offers_all_nonempty db 1000 ltac:(lia) Hcat) as Hne.
    destruct (get_offers db 1000 None) as [|o l] eqn:Hread; [congruence|].
    destruct (Hrun o l eq_refl) as (p & c & Hp & Hc & Hs).
    rewrite Hs. split.
    + split.
      * intros (o' & Hin & Hnull).
        assert (Hex : existsb (fun o => is_null (Offer.commission o)) (o :: l)
                      = true)
          by (apply existsb_exists; exists o'; split; assumption).
        rewrite Hex. reflexivity.
      * destruct (existsb _ (o :: l)) eqn:Hex; [|discriminate].
        intros _. apply existsb_exists in Hex. exact Hex.
    + intros Hall.
      assert (Hex : existsb (fun o => is_null (Offer.commission o)) (o :: l)
                    = false).
      { destruct (existsb _ (o :: l)) eqn:Hex; [|reflexivity].
        apply existsb_exists in Hex. destruct Hex as (o' & Hin & Hnull).
        eapply Forall_forall in Hall; [|exact Hin]. congruence. }
      rewrite Hex.
      destruct (tally_spec (map Offer.platform (o :: l)))
        as (p' & Hp' & Hp1 & Hp2 & Hp3); [discriminate|].
      destruct (tally_spec (map Offer.category (o :: l)))
        as (c' & Hc' & Hc1 & Hc2 & Hc3); [discriminate|].
      assert (p' = p) by congruence. assert (c' = c) by congruence.
      subst p' c'.
      eexists. split; [reflexivity|].
      cbn [total_offers by_platform by_category top_platform top_category].
      repeat split; assumption.
Qed.

Lemma stats_command_breakdown_witness :
  stats_command init_database = inr None
  /\ stats_command db_catalog
     = inr (Some (mkBreakdown 1 [("SparkLoop"%string, 1)]
                    [("ai_tools"%string, 1)] "SparkLoop" "ai_tools"))
  /\ stats_command db_null_commission = inl TypeError.
Proof.
  destruct (stats_command_breakdown init_database) as [H0 _].
  destruct (stats_command_breakdown db_catalog) as [_ H1].
  destruct (stats_command_breakdown db_null_commission) as [_ H2].
  split; [apply H0; reflexivity|].
  destruct H1 as [_ H1]; [discriminate|].
  destruct H2 as [H2 _]; [discriminate|].
  split.
  - destruct H1 as (b & Hb & _).
    + repeat constructor.
    + vm_compute in Hb. injection Hb as <-. reflexivity.
  - apply H2. eexists. split; [left; reflexivity|reflexivity].
Defined.

(** ** [test_referral_system] *)

(** X18.  On a new database file and with two different drawn codes the test
    script does not reach its [except] branch and prints what it expects: one
    referral and 5.0 earned for the first user, whose code is the second
    user's [referred_by], one entry on the leaderboard and one referral
    record. *)
Theorem test_referral_system_fresh (token1 token2 : string) (now : datetime) :
  ("LUX" ++ upper token1)%string <> ("LUX" ++ upper token2)%string ->
  test_referral_system init_database token1 token2 now
  = (mkDatabase []
       [ User.mk (Some 1) 12345 "testuser1" "Alice"
           ("LUX" ++ upper token1)%string None 1 5%float now now;
         User.mk (Some 2) 67890 "testuser2" "Bob"
           ("LUX" ++ upper token2)%string
           (Some ("LUX" ++ upper token1)%string) 0 0%float now now ]
       [ Referral.mk (Some 1) ("LUX" ++ upper token1)%string 67890 5%float
           "confirmed" now now ]
       [],
     Some (mkTestReport 1 5%float (Some ("LUX" ++ upper token1)%string) 1 1)).
Proof.
  intros Hcodes. unfold test_referral_system, new_User.
  cbn [User.referral_code User.user_id].
  revert Hcodes.
  generalize ("LUX" ++ upper token1)%string, ("LUX" ++ upper token2)%string.
  intros c1 c2 Hcodes.
  assert (H12 : String.eqb c1 c2 = false)
    by (apply String.eqb_neq; exact Hcodes).
  assert (H21 : String.eqb c2 c1 = false)
    by (rewrite String.eqb_sym; exact H12).
  unfold save_user, save_referral, get_user, get_leaderboard, get_referrals,
    init_database.
  cbn. rewrite H12. cbn. rewrite ?String.eqb_refl, ?H21. cbn.
  rewrite ?String.eqb_refl, ?H21. reflexivity.
Qed.

Lemma test_referral_system_fresh_witness :
  snd (test_referral_system init_database "ab12cd34" "9f3e77a0" 100)
  = Some (mkTestReport 1 5%float (Some "LUXAB12CD34"%string) 1 1).
Proof.
  rewrite (test_referral_system_fresh "ab12cd34" "9f3e77a0" 100);
    [reflexivity|discriminate].
Defined.



(** ** The properties on the sample stores *)

Ltac reach_alice_bob :=
  apply (reachable_start db_alice tg_bob ["LUXAB12CD34"%string]
           "9f3e77a0"%string 200 db_alice_bob
           (mkReply new_with_referral
              (Some (User.mk (Some 2) 2 "bob" "Bob" "LUX9F3E77A0"
                       (Some "LUXAB12CD34"%string) 0 0%float 200 200))
              (Some alice)));
  [ apply (reachable_start init_database tg_alice [] "ab12cd34"%string 100
             db_alice (mkReply new (Some alice) None));
    [ apply reachable_init | reflexivity ]
  | reflexivity ].

Lemma reachable_keys_ok_witness :
  reachable db_alice_bob
  /\ keys_ok db_alice_bob
  /\ rowids_ok db_alice_bob
  /\ get_user_by_referral_code db_alice_bob "LUX9F3E77A0"
     = nth_error (users db_alice_bob) 1.
Proof.
  assert (Hr : reachable db_alice_bob) by reach_alice_bob.
  split; [exact Hr|].
  destruct (reachable_keys_ok db_alice_bob Hr) as (Hk & Hrow & Hfind).
  split; [exact Hk|]. split; [exact Hrow|].
  apply (Hfind (User.mk (Some 2) 2 "bob" "Bob" "LUX9F3E77A0"
                  (Some "LUXAB12CD34"%string) 0 0%float 200 200)).
  right. left. reflexivity.
Defined.

Lemma reachable_ledger_ok_witness :
  reachable db_alice_bob /\ ledger_ok db_alice_bob.
Proof.
  assert (Hr : reachable db_alice_bob) by reach_alice_bob.
  split; [exact Hr|]. apply (reachable_ledger_ok db_alice_bob Hr).
Defined.

Lemma reachable_referrals_ok_witness :
  reachable db_alice_bob /\ referrals_ok db_alice_bob.
Proof.
  assert (Hr : reachable db_alice_bob) by reach_alice_bob.
  split; [exact Hr|]. apply (reachable_referrals_ok db_alice_bob Hr).
Defined.

Lemma get_offers_newest_first_witness :
  0 <= 5
  /\ get_offers db_catalog 5 (Some "ai_tools"%string) = [offer_zero]
  /\ get_offers db_catalog 5 (Some "gadgets"%string) = []
  /\ Z.of_nat (List.length (get_offers db_catalog 5 None)) <= 5.
Proof.
  split; [lia|]. split; [reflexivity|]. split; [reflexivity|].
  apply (get_offers_newest_first db_catalog 5 None). lia.
Defined.

(** ** What no handler does to a user row *)

Lemma row_kept_refl (u : User.t) : row_kept u u.
Proof. unfold row_kept. repeat split. lia. Qed.

Lemma row_kept_trans (u v w : User.t) :
  row_kept u v -> row_kept v w -> row_kept u w.
Proof.
  unfold row_kept. intros (A1 & A2 & A3 & A4 & A5 & A6)
                          (B1 & B2 & B3 & B4 & B5 & B6).
  repeat split; try congruence. lia.
Qed.

Lemma users_kept_refl (db : Database) : users_kept db db.
Proof. intros i u H. exists u. split; [exact H|apply row_kept_refl]. Qed.

Lemma users_kept_trans (db0 db1 db2 : Database) :
  users_kept db0 db1 -> users_kept db1 db2 -> users_kept db0 db2.
Proof.
  intros H01 H12 i u Hu. destruct (H01 i u Hu) as (v & Hv & Huv).
  destruct (H12 i v Hv) as (w & Hw & Hvw).
  exists w. split; [exact Hw|]. eapply row_kept_trans; eassumption.
Qed.

Lemma users_kept_map (db db' : Database) (f : User.t -> User.t) :
  users db' = map f (users db) ->
  (forall u, row_kept u (f u)) ->
  users_kept db db'.
Proof.
  intros Hmap Hf i u Hu. rewrite Hmap. exists (f u).
  split; [apply map_nth_error; exact Hu|apply Hf].
Qed.

Lemma users_kept_save_user (db db' : Database) (u : User.t) (now : datetime)
    (id : Z) :
  save_user db u now = Ok (db', id) -> users_kept db db'.
Proof.
  intros H. apply save_user_ok_cases in H.
  destruct H as [[_ ->]|(_ & _ & ->)].
  - eapply users_kept_map; [reflexivity|].
    intros v. cbv beta. destruct (User.user_id v =? User.user_id u)%Z;
      unfold row_kept, User.touch;
      cbn [User.id User.user_id User.referral_code User.referred_by
           User.created_at User.referral_count];
      repeat split; lia.
  - intros i v Hv. exists v. split; [|apply row_kept_refl].
    cbn [users with_users]. rewrite nth_error_app1; [exact Hv|].
    apply nth_error_Some. congruence.
Qed.

Lemma users_kept_save_referral (db db' : Database) (r : Referral.t)
    (now : datetime) (id : Z) :
  save_referral db r now = Ok (db', id) -> users_kept db db'.
Proof.
  unfold save_referral. intros H. injection H as <- _.
  eapply users_kept_map; [reflexivity|].
  intros v. cbv beta.
  destruct (String.eqb (User.referral_code v) (Referral.referrer_code r));
    unfold row_kept, User.credit;
    cbn [User.id User.user_id User.referral_code User.referred_by
         User.created_at User.referral_count];
    repeat split; lia.
Qed.

(** X20.  No handler deletes or moves a user row, changes its [id],
    [user_id], [referral_code], [referred_by] or [created_at], or lowers its
    [referral_count]: this holds for [/start], for [/referral] whether it
    shows the dashboard or raises, for a post and for the start of the
    bot. *)
Theorem handlers_keep_users (db : Database) :
  (forall (user : TgUser.t) (args : list string) (token : string)
          (now : datetime) (db' : Database) (reply : Reply),
      start_command db user args token now = Ok (db', reply) ->
      users_kept db db')
  /\ (forall (user : TgUser.t) (token : string) (now : datetime)
             (db' : Database) (outcome : handler_exn + Dashboard),
      referral_command db user token now = (db', outcome) ->
      users_kept db db')
  /\ (forall (stats : Stats) (channel : string) (gen : nat -> OfferDraw)
             (pick : nat) (d : Draws) (format_2f format_0f : float -> string)
             (str_title : string -> string) (sent : option Z)
             (now : datetime),
      users_kept db
        (fst (post_to_channel db stats channel gen pick d format_2f
                format_0f str_title sent now)))
  /\ (forall (stats : Stats) (bot_token channel_id : option string)
             (gen : nat -> OfferDraw) (now : datetime) (db' : Database)
             (stats' : Stats),
      start_bot db stats bot_token channel_id gen now
      = Ok (Some (db', stats')) ->
      users_kept db db').
Proof.
  assert (Hsu : forall (d : Database) (u : User.t) (now : datetime)
                       (d' : Database) (id : Z),
             users_kept db d -> save_user d u now = Ok (d', id) ->
             users_kept db d').
  { intros d u now d' id Hk Hs. eapply users_kept_trans; [exact Hk|].
    eapply users_kept_save_user. exact Hs. }
  assert (Hsr : forall (d d1 d2 : Database) (u referrer : User.t)
                       (now : datetime) (id rid : Z) (code : string),
             users_kept db d ->
             get_user d (User.user_id u) = None ->
             save_user d u now = Ok (d1, id) ->
             get_user_by_referral_code d1 code = Some referrer ->
             save_referral d1
               (Referral.mk None code (User.user_id u) 5%float "confirmed"
                  now now) now = Ok (d2, rid) ->
             users_kept db d2).
  { intros d d1 d2 u referrer now id rid code Hk _ Hs _ Hr.
    eapply users_kept_trans; [eapply Hsu; eassumption|].
    eapply users_kept_save_referral. exact Hr. }
  assert (Hso : forall (d : Database) (o : Offer.t) (now : datetime)
                       (d' : Database) (id : Z),
             users_kept db d -> save_offer d o now = Ok (d', id) ->
             users_kept db d').
  { intros d o now d' id Hk Hs. unfold save_offer in Hs.
    injection Hs as <- _. exact Hk. }
  assert (Hlp : forall (d : Database) (oid : option Z) (ch : string)
                       (mid : Z) (now : datetime) (d' : Database),
             users_kept db d -> log_post d oid ch mid now = Ok d' ->
             users_kept db d').
  { intros d oid ch mid now d' Hk Hl. unfold log_post in Hl.
    injection Hl as <-. exact Hk. }
  split; [|split; [|split]].
  - intros user args token now db' reply H.
    eapply (start_command_preserves (users_kept db) Hsu Hsr);
      [apply users_kept_refl|exact H].
  - intros user token now db' outcome H.
    pose proof (referral_command_preserves (users_kept db) Hsu db user token
                  now (users_kept_refl db)) as Hk.
    rewrite H in Hk. exact Hk.
  - intros. apply (post_to_channel_preserves (users_kept db) Hso Hlp).
    apply users_kept_refl.
  - intros stats tok ch gen now db' stats' H.
    eapply (start_bot_preserves (users_kept db) Hso);
      [apply users_kept_refl|exact H].
Qed.

Lemma handlers_keep_users_witness :
  start_command db_alice tg_bob ["LUXAB12CD34"%string] "9f3e77a0" 200
  = Ok (db_alice_bob,
        mkReply new_with_referral
          (Some (User.mk (Some 2) 2 "bob" "Bob" "LUX9F3E77A0"
                   (Some "LUXAB12CD34"%string) 0 0%float 200 200))
          (Some alice))
  /\ users_kept db_alice db_alice_bob.
Proof.
  split; [reflexivity|].
  destruct (handlers_keep_users db_alice) as [H _].
  apply (H tg_bob ["LUXAB12CD34"%string] "9f3e77a0"%string 200 db_alice_bob
           (mkReply new_with_referral
              (Some (User.mk (Some 2) 2 "bob" "Bob" "LUX9F3E77A0"
                       (Some "LUXAB12CD34"%string) 0 0%float 200 200))
              (Some alice))).
  reflexivity.
Defined.

Lemma save_referral_then_get_referrals_witness :
  exists (db' : Database) (id : Z),
    save_referral db_alice_bob alice_referral 300 = Ok (db', id)
    /\ List.length (get_referrals db' "LUXAB12CD34") = 2%nat
    /\ get_referrals db' "LUX9F3E77A0" = get_referrals db_alice_bob "LUX9F3E77A0".
Proof.
  destruct (save_referral_then_get_referrals db_alice_bob alice_referral 300)
    as (db' & id & Hsave & Hperm & Hother).
  exists db', id. split; [exact Hsave|]. split.
  - apply Permutation_length in Hperm. exact Hperm.
  - apply Hother. discriminate.
Defined.

Lemma generate_offers_spec_witness :
  exists (offers : list Offer.t) (o : Offer.t),
    generate_offers 2 gen_0 100 = Ok offers
    /\ nth_error offers 1 = Some o
    /\ Offer.title o = "Passive Income Blueprint 2025 - Limited Time"%string
    /\ In (Offer.category o) categories
    /\ Offer.affiliate_link o
       = "https://trendbot.link/clickbank/2?ref=trendbot"%string.
Proof.
  destruct (generate_offers_spec 2 gen_0 100) as (offers & Hgen & Hlen & Hnth).
  assert (Hval : generate_offers 2 gen_0 100 = Ok offers) by exact Hgen.
  vm_compute in Hgen. injection Hgen as Hgen. subst offers.
  eexists. eexists. split; [exact Hval|].
  split; [reflexivity|]. split; [reflexivity|].
  destruct (Hnth 1%nat _ eq_refl) as (t & _ & _ & _ & _ & _ & _ & _ & Hc & _ & Hl).
  split; [exact Hc|reflexivity].
Defined.
